(** * Reconciliation scorer: a shallow embedding of [app/engine/scorer.py]

    The development follows the Python module function by function.

    Numbers.  [Decimal] amounts and Python [float] scores are both carried
    as exact rationals ([Q]); rounding of either representation is not
    modelled, so equalities between scores are stated up to [Qeq] and
    concrete runs are chosen so that the rounded and the exact value sit on
    the same side of every comparison.

    Records.  Invoices and transactions are Python dicts with string keys:
    [gmap string pyval].  [d.get(k)] is a lookup that defaults to [None],
    [d[k]] a lookup that raises [KeyError].

    Logging.  [logger.debug] and [logger.info] only write to the logging
    subsystem; nothing they produce is read back, and they are left out. *)

From Stdlib Require Import ZArith QArith Qminmax Qabs Lia List Ascii String Bool.
From Stdlib Require Import DecimalString Sorted Permutation Lqa.
From stdpp Require Import base option strings gmap.

Import ListNotations.
Local Open Scope string_scope.
Local Open Scope Z_scope.

(* ------------------------------------------------------------------ *)
(** ** Python strings *)

Module PyStr.

(** [str.lower] on the ASCII range; other bytes are left as they are. *)
Definition lower_ascii (c : ascii) : ascii :=
  let n := nat_of_ascii c in
  if (Nat.leb 65 n && Nat.leb n 90)%bool then ascii_of_nat (n + 32) else c.

Fixpoint lower (s : string) : string :=
  match s with
  | EmptyString => EmptyString
  | String c rest => String (lower_ascii c) (lower rest)
  end.

(** Truthiness of a string: non-empty. *)
Definition truthy (s : string) : bool :=
  match s with
  | EmptyString => false
  | String _ _ => true
  end.

(** [x in y] for strings: [x] occurs as a contiguous substring of [y]. *)
Fixpoint contains (x y : string) : bool :=
  if String.prefix x y then true
  else match y with
       | EmptyString => false
       | String _ rest => contains x rest
       end.

(** [s[:n]] for a non-negative literal [n]. *)
Definition take (n : nat) (s : string) : string := String.substring 0 n s.

(** [str(n)] for an integer. *)
Definition of_Z (n : Z) : string := NilZero.string_of_int (Z.to_int n).

(** [sep.join(parts)]. *)
Fixpoint join (sep : string) (parts : list string) : string :=
  match parts with
  | [] => EmptyString
  | [p] => p
  | p :: rest => p ++ sep ++ join sep rest
  end.

(** Left padding with zeros up to [width] characters, as [%02d] does. *)
Fixpoint zfill_aux (k : nat) (s : string) : string :=
  match k with
  | O => s
  | S k' => String "0" (zfill_aux k' s)
  end.

Definition zfill (width : nat) (s : string) : string :=
  zfill_aux (width - String.length s) s.

End PyStr.

(* ------------------------------------------------------------------ *)
(** ** Python numbers *)

Module PyNum.

(** [floor] and round-half-even of a rational. *)
Definition floorQ (q : Q) : Z := Qnum q / Zpos (Qden q).

Definition round_half_even (q : Q) : Z :=
  let f := floorQ q in
  let r := (q - inject_Z f)%Q in
  match (r ?= 1 # 2)%Q with
  | Lt => f
  | Gt => f + 1
  | Eq => if Z.even f then f else f + 1
  end.

(** [int(x)] for a float: truncation toward zero. *)
Definition trunc (q : Q) : Z := Z.quot (Qnum q) (Zpos (Qden q)).

(** [f"{x:.Nf}"]: fixed-point rendering with [digits] decimals, the sign
    printed from the sign of [x] itself (so a small negative value prints
    as [-0.0]). *)
Definition format_fixed (digits : nat) (x : Q) : string :=
  let scale := 10 ^ Z.of_nat digits in
  let n := round_half_even (Qabs x * inject_Z scale) in
  let ip := PyStr.of_Z (n / scale) in
  let fp := PyStr.zfill digits (PyStr.of_Z (n mod scale)) in
  let body := match digits with
              | O => ip
              | S _ => ip ++ "." ++ fp
              end in
  if Qlt_le_dec x 0 then "-" ++ body else body.

(** Python's [min(a, b)]: [b] when [b < a], otherwise [a]. *)
Definition min (a b : Q) : Q := if Qlt_le_dec b a then b else a.

(** Python's [max(a, b)]: [b] when [b > a], otherwise [a]. *)
Definition max (a b : Q) : Q := if Qlt_le_dec a b then b else a.

End PyNum.

(* ------------------------------------------------------------------ *)
(** ** [datetime] *)

Module PyDate.

(** A [datetime.datetime]: wall-clock fields and an optional [tzinfo],
    given by its UTC offset in minutes ([None] for a naive value). *)
Record datetime : Type := mk_datetime {
  year : Z;
  month : Z;
  day : Z;
  hour : Z;
  minute : Z;
  second : Z;
  microsecond : Z;
  tzinfo : option Z
}.

(** [dt.replace(tzinfo=None)]. *)
Definition strip_tz (d : datetime) : datetime :=
  mk_datetime (year d) (month d) (day d) (hour d) (minute d) (second d)
              (microsecond d) None.

Definition is_leap (y : Z) : bool :=
  ((y mod 4 =? 0) && (negb (y mod 100 =? 0) || (y mod 400 =? 0)))%bool.

Definition days_before_year (y : Z) : Z :=
  let p := y - 1 in p * 365 + p / 4 - p / 100 + p / 400.

Definition days_in_month (y m : Z) : Z :=
  if m =? 2 then (if is_leap y then 29 else 28)
  else if (m =? 4) || (m =? 6) || (m =? 9) || (m =? 11) then 30
  else 31.

(** Days of the year before the first of month [m]. *)
Definition days_before_month (y m : Z) : Z :=
  fold_left (fun acc k => acc + days_in_month y (Z.of_nat k))
            (seq 1 (Z.to_nat (m - 1))) 0.

(** [date.toordinal()]: 1 for 0001-01-01. *)
Definition toordinal (d : datetime) : Z :=
  days_before_year (year d) + days_before_month (year d) (month d) + day d.

Definition seconds_of_day (d : datetime) : Z :=
  hour d * 3600 + minute d * 60 + second d.

Definition us_per_day : Z := 86400 * 1000000.

(** Wall-clock position in microseconds, the time zone ignored. *)
Definition wall_us (d : datetime) : Z :=
  toordinal d * us_per_day + seconds_of_day d * 1000000 + microsecond d.

(** [(a - b).days] for two naive values: a [timedelta] is normalised with
    [0 <= seconds < 86400] and [0 <= microseconds < 10**6], so its [days]
    is the floor of the difference measured in days. *)
Definition sub_days (a b : datetime) : Z :=
  (wall_us a - wall_us b) / us_per_day.

(** Same calendar date on the wall clock. *)
Definition same_date (a b : datetime) : Prop :=
  year a = year b /\ month a = month b /\ day a = day b.

(** The instant denoted by an aware value, in microseconds. *)
Definition instant_us (d : datetime) (offset : Z) : Z :=
  wall_us d - offset * 60 * 1000000.

(** [a == b]: naive values compare by fields, aware values by instant, a
    naive and an aware value are never equal. *)
Definition eqb (a b : datetime) : bool :=
  match tzinfo a, tzinfo b with
  | None, None => wall_us a =? wall_us b
  | Some oa, Some ob => instant_us a oa =? instant_us b ob
  | _, _ => false
  end.

Definition two (n : Z) : string := PyStr.zfill 2 (PyStr.of_Z n).

Definition offset_str (o : Z) : string :=
  (if o <? 0 then "-" else "+") ++ two (Z.abs o / 60) ++ ":" ++ two (Z.abs o mod 60).

(** [str(dt)], that is [dt.isoformat(sep=' ')]. *)
Definition to_str (d : datetime) : string :=
  PyStr.zfill 4 (PyStr.of_Z (year d)) ++ "-" ++ two (month d) ++ "-" ++ two (day d)
  ++ " " ++ two (hour d) ++ ":" ++ two (minute d) ++ ":" ++ two (second d)
  ++ (if microsecond d =? 0 then EmptyString
      else "." ++ PyStr.zfill 6 (PyStr.of_Z (microsecond d)))
  ++ match tzinfo d with
     | None => EmptyString
     | Some o => offset_str o
     end.

End PyDate.

(* ------------------------------------------------------------------ *)
(** ** Exceptions *)

Inductive exn : Type :=
| KeyError (key : string)
| InvalidOperation
| AttributeError.

Inductive result (A : Type) : Type :=
| Ok (a : A)
| Raise (e : exn).

Arguments Ok {A} a.
Arguments Raise {A} e.

#[global] Instance result_ret : MRet result := fun A a => Ok a.

#[global] Instance result_bind : MBind result := fun A B k m =>
  match m with
  | Ok a => k a
  | Raise e => Raise e
  end.

(* ------------------------------------------------------------------ *)
(** ** [Decimal] *)

Module PyDecimal.

Definition digit_of (c : ascii) : option Z :=
  let n := nat_of_ascii c in
  if (Nat.leb 48 n && Nat.leb n 57)%bool then Some (Z.of_nat (n - 48)) else None.

(** Reads a maximal run of digits: the value read so far, the number of
    digits read, and the rest of the input. *)
Fixpoint digits (s : string) (acc : Z) (count : nat) : Z * nat * string :=
  match s with
  | EmptyString => (acc, count, s)
  | String c rest =>
      match digit_of c with
      | Some d => digits rest (acc * 10 + d) (S count)
      | None => (acc, count, s)
      end
  end.

Definition sign_of (s : string) : bool * string :=
  match s with
  | String "-" rest => (true, rest)
  | String "+" rest => (false, rest)
  | _ => (false, s)
  end.

Definition pow10 (e : Z) : Q :=
  if e <? 0 then (1 # Z.to_pos (10 ^ (- e))) else inject_Z (10 ^ e).

(** Optional exponent part [e[+-]digits]; [None] when the input is not
    exhausted by it. *)
Definition exponent (s : string) : option Z :=
  match s with
  | EmptyString => Some 0
  | String c rest =>
      if (Ascii.eqb c "e" || Ascii.eqb c "E")%bool then
        let '(neg, rest1) := sign_of rest in
        let '(e, n, rest2) := digits rest1 0 O in
        match n, rest2 with
        | S _, EmptyString => Some (if neg then - e else e)
        | _, _ => None
        end
      else None
  end.

(** [Decimal(s)] for a finite numeric string [[sign] digits [. digits]
    [exponent]] with at least one digit in the coefficient.  The special
    values ([NaN], [Infinity]), surrounding white space and digit-group
    underscores are outside the model and are rejected. *)
Definition of_str (s : string) : result Q :=
  let '(neg, s1) := sign_of s in
  let '(ip, n1, s2) := digits s1 0 O in
  let '(coef, n2, s3) :=
    match s2 with
    | String "." rest => digits rest ip O
    | _ => (ip, O, s2)
    end in
  match (n1 + n2)%nat, exponent s3 with
  | S _, Some e =>
      let v := (inject_Z coef * pow10 (e - Z.of_nat n2))%Q in
      Ok (if neg then (- v)%Q else v)
  | _, _ => Raise InvalidOperation
  end.

End PyDecimal.

(* ------------------------------------------------------------------ *)
(** ** The scoring engine *)

Local Open Scope Q_scope.

(** [class MatchCandidate]; the three sub-scores are stored on the 0-100
    scale. *)
Record MatchCandidate : Type := mk_candidate {
  invoice_id : string;
  transaction_id : string;
  score : Q;
  amount_score : Q;
  date_score : Q;
  text_score : Q;
  explanation : string
}.

(** The attributes set by [ReconciliationScorer.__init__]. *)
Record ReconciliationScorer : Type := mk_scorer {
  amount_exact_weight : Q;
  amount_close_weight : Q;
  date_proximity_weight : Q;
  text_similarity_weight : Q;
  amount_tolerance_percent : Q;
  date_proximity_days : Z
}.

(** [ReconciliationScorer()] with the default arguments. *)
Definition default_scorer : ReconciliationScorer :=
  mk_scorer (4 # 10) (2 # 10) (3 # 10) (3 # 10) 2 3.

Definition with_amount_close_weight (self : ReconciliationScorer) (w : Q)
  : ReconciliationScorer :=
  mk_scorer (amount_exact_weight self) w (date_proximity_weight self)
            (text_similarity_weight self) (amount_tolerance_percent self)
            (date_proximity_days self).

(** The percentage difference of [calculate_amount_score]:
    [(diff / avg) * 100 if avg > 0 else 100]. *)
Definition percent_diff (invoice_amount transaction_amount : Q) : Q :=
  let diff := Qabs (invoice_amount - transaction_amount) in
  let avg := (invoice_amount + transaction_amount) / 2 in
  if Qlt_le_dec 0 avg then (diff / avg) * 100 else 100.

Definition calculate_amount_score (self : ReconciliationScorer)
    (invoice_amount transaction_amount : Q) : Q * string :=
  if Qeq_bool invoice_amount transaction_amount then
    (1, "Exact amount match")
  else
    let p := percent_diff invoice_amount transaction_amount in
    if Qle_bool p (amount_tolerance_percent self) then
      (1 - (p / amount_tolerance_percent self) * (1 # 2),
       "Amount within " ++ PyNum.format_fixed 1 p ++ "% tolerance")
    else
      (PyNum.max 0 (1 - p / 100),
       "Amount differs by " ++ PyNum.format_fixed 1 p ++ "%").

(** [abs((invoice_date - transaction_date).days)] once both sides have
    lost their [tzinfo]. *)
Definition days_diff (invoice_date transaction_date : PyDate.datetime) : Z :=
  let invoice_date :=
    match PyDate.tzinfo invoice_date with
    | Some _ => PyDate.strip_tz invoice_date
    | None => invoice_date
    end in
  let transaction_date :=
    match PyDate.tzinfo transaction_date with
    | Some _ => PyDate.strip_tz transaction_date
    | None => transaction_date
    end in
  Z.abs (PyDate.sub_days invoice_date transaction_date).

(** The part of [calculate_date_score] that follows the computation of
    [days_diff]. *)
Definition date_score_of_days (self : ReconciliationScorer) (days : Z)
  : Q * string :=
  if (days =? 0)%Z then (1, "Same day transaction")
  else if (days <=? date_proximity_days self)%Z then
    (1 - (inject_Z days / inject_Z (date_proximity_days self)) * (1 # 2),
     "Transaction " ++ PyStr.of_Z days ++ " days from invoice date")
  else
    (PyNum.max 0 (1 - inject_Z days / 30),
     "Transaction " ++ PyStr.of_Z days ++ " days from invoice date").

Definition calculate_date_score (self : ReconciliationScorer)
    (invoice_date : option PyDate.datetime)
    (transaction_date : PyDate.datetime) : Q * string :=
  match invoice_date with
  | None => (1 # 2, "Invoice date not available")
  | Some invoice_date =>
      date_score_of_days self (days_diff invoice_date transaction_date)
  end.

(** Truthiness of an [Optional[str]]: present and non-empty. *)
Definition truthy (s : option string) : bool :=
  match s with
  | Some s => PyStr.truthy s
  | None => false
  end.

(** [x.lower()] for a field already known to be truthy. *)
Definition lowered (s : option string) : string :=
  match s with
  | Some s => PyStr.lower s
  | None => EmptyString
  end.

Definition raw (s : option string) : string :=
  match s with
  | Some s => s
  | None => EmptyString
  end.

(** The list [invoice_texts] collected at the start of
    [calculate_text_score]. *)
Definition invoice_texts (invoice_desc invoice_number vendor_name : option string)
  : list string :=
  (if truthy invoice_desc then [lowered invoice_desc] else [])
  ++ (if truthy invoice_number then [lowered invoice_number] else [])
  ++ (if truthy vendor_name then [lowered vendor_name] else []).

Section Scorer.

(** [fuzz.partial_ratio] of the fuzzywuzzy package: an integer between 0
    and 100. *)
Variable partial_ratio : string -> string -> Z.

(** One turn of the loop over [invoice_texts]; the state is
    [(max_score, best_match)]. *)
Definition text_step (transaction_text : string) (st : Q * string)
    (invoice_text : string) : Q * string :=
  let ratio := inject_Z (partial_ratio invoice_text transaction_text) / 100 in
  if Qlt_le_dec (fst st) ratio then (ratio, PyStr.take 50 invoice_text) else st.

Definition calculate_text_score
    (invoice_desc transaction_desc invoice_number vendor_name : option string)
  : Q * string :=
  let texts := invoice_texts invoice_desc invoice_number vendor_name in
  if negb (truthy transaction_desc) || match texts with [] => true | _ => false end
  then (3 # 10, "Insufficient text data for comparison")
  else
    let transaction_text := lowered transaction_desc in
    let st := fold_left (text_step transaction_text) texts (0, EmptyString) in
    let st :=
      if truthy invoice_number
         && PyStr.contains (lowered invoice_number) transaction_text
      then (PyNum.max (fst st) (9 # 10),
            "Invoice number '" ++ raw invoice_number ++ "' found in description")
      else st in
    let st :=
      if truthy vendor_name
         && PyStr.contains (lowered vendor_name) transaction_text
      then (PyNum.max (fst st) (85 # 100),
            "Vendor name '" ++ raw vendor_name ++ "' found in description")
      else st in
    let '(max_score, best_match) := st in
    let explanation :=
      "Text similarity: " ++ PyStr.of_Z (PyNum.trunc (max_score * 100)) ++ "%" in
    let explanation :=
      if PyStr.truthy best_match
      then explanation ++ " (matched: " ++ best_match ++ ")"
      else explanation in
    (max_score, explanation).

Definition score_match (self : ReconciliationScorer)
    (invoice_id : string) (invoice_amount : Q)
    (invoice_date : option PyDate.datetime)
    (invoice_desc invoice_number vendor_name : option string)
    (transaction_id : string) (transaction_amount : Q)
    (transaction_date : PyDate.datetime)
    (transaction_desc : option string) : MatchCandidate :=
  let '(amount_score, amount_explanation) :=
    calculate_amount_score self invoice_amount transaction_amount in
  let '(date_score, date_explanation) :=
    calculate_date_score self invoice_date transaction_date in
  let '(text_score, text_explanation) :=
    calculate_text_score invoice_desc transaction_desc invoice_number vendor_name in
  let total_score :=
    amount_score * amount_exact_weight self
    + date_score * date_proximity_weight self
    + text_score * text_similarity_weight self in
  let total_score := PyNum.min 100 (total_score * 100) in
  let explanation_parts :=
    [ "Amount: " ++ amount_explanation;
      "Date: " ++ date_explanation;
      "Text: " ++ text_explanation;
      "Overall confidence: " ++ PyNum.format_fixed 1 total_score ++ "%" ] in
  let explanation := PyStr.join " | " explanation_parts in
  mk_candidate invoice_id transaction_id total_score
               (amount_score * 100) (date_score * 100) (text_score * 100)
               explanation.

End Scorer.

(* ------------------------------------------------------------------ *)
(** ** Dict-shaped records and batch scoring *)

(** The values the GraphQL layer ([app/schema.py]) and the tests put into
    the invoice and transaction dicts: [None], a [str] or a [datetime]. *)
Inductive pyval : Type :=
| PNone
| PStr (s : string)
| PDatetime (d : PyDate.datetime).

(** [a == b] between two such values. *)
Definition py_eqb (a b : pyval) : bool :=
  match a, b with
  | PNone, PNone => true
  | PStr s, PStr t => String.eqb s t
  | PDatetime d, PDatetime e => PyDate.eqb d e
  | _, _ => false
  end.

(** [str(v)]. *)
Definition py_str (v : pyval) : string :=
  match v with
  | PNone => "None"
  | PStr s => s
  | PDatetime d => PyDate.to_str d
  end.

(** [d.get(key)]: [None] when the key is missing. *)
Definition dict_get (d : gmap string pyval) (key : string) : pyval :=
  default PNone (d !! key).

(** [d[key]]: [KeyError] when the key is missing. *)
Definition dict_item (d : gmap string pyval) (key : string) : result pyval :=
  match d !! key with
  | Some v => Ok v
  | None => Raise (KeyError key)
  end.

(** A value passed where [score_match] expects an [Optional[str]]; the
    scorer calls [.lower()] on whatever is truthy there, which a
    [datetime] does not have. *)
Definition as_optional_str (v : pyval) : result (option string) :=
  match v with
  | PNone => Ok None
  | PStr s => Ok (Some s)
  | PDatetime _ => Raise AttributeError
  end.

(** A value passed where [score_match] expects an [Optional[datetime]];
    the scorer reads [.tzinfo] of whatever is not [None], which a [str]
    does not have. *)
Definition as_optional_datetime (v : pyval) : result (option PyDate.datetime) :=
  match v with
  | PNone => Ok None
  | PDatetime d => Ok (Some d)
  | PStr _ => Raise AttributeError
  end.

(** A value passed where [score_match] expects a [datetime]. *)
Definition as_datetime (v : pyval) : result PyDate.datetime :=
  match v with
  | PDatetime d => Ok d
  | _ => Raise AttributeError
  end.

(** [l[:n]] for a Python list: a negative bound counts from the end. *)
Definition slice_to {A : Type} (n : Z) (l : list A) : list A :=
  if (n <? 0)%Z then firstn (Z.to_nat (Z.of_nat (length l) + n)) l
  else firstn (Z.to_nat n) l.

(** [l.sort(key=lambda x: x.score, reverse=True)]: stable, descending. *)
Fixpoint insert_desc (c : MatchCandidate) (l : list MatchCandidate)
  : list MatchCandidate :=
  match l with
  | [] => [c]
  | d :: rest =>
      if Qlt_le_dec (score c) (score d) then d :: insert_desc c rest
      else c :: d :: rest
  end.

Definition sort_desc (l : list MatchCandidate) : list MatchCandidate :=
  foldr insert_desc [] l.

(** The ten keyword arguments of a call to [score_match]. *)
Record call_arguments : Type := mk_call {
  arg_invoice_id : string;
  arg_invoice_amount : Q;
  arg_invoice_date : option PyDate.datetime;
  arg_invoice_desc : option string;
  arg_invoice_number : option string;
  arg_vendor_name : option string;
  arg_transaction_id : string;
  arg_transaction_amount : Q;
  arg_transaction_date : PyDate.datetime;
  arg_transaction_desc : option string
}.

Section Batch.

Variable partial_ratio : string -> string -> Z.
Variable self : ReconciliationScorer.

(** The currency test at the head of the inner loop: [true] when the pair
    is skipped. *)
Definition currency_differs (invoice transaction : gmap string pyval) : bool :=
  negb (py_eqb (dict_get invoice "currency") (dict_get transaction "currency")).

(** The call to [score_match] in the inner loop.  The arguments are
    evaluated in the order they are written ([KeyError] and
    [InvalidOperation] come from there); the body of [score_match] then
    touches the dates first and the texts second.  A record whose values
    have the types of [InvoiceInput] and [TransactionInput] never reaches
    an [AttributeError]; for other records the model raises it as soon as
    the ill-typed value is handed over, also in the two corners where
    Python would not look at the value (a [posted_at] that is no
    [datetime] next to a missing invoice date, a truthy non-string
    transaction description next to an empty [invoice_texts]). *)
Definition pair_arguments (invoice transaction : gmap string pyval)
  : result call_arguments :=
  iid ← dict_item invoice "id";
  iamt_raw ← dict_item invoice "amount";
  iamt ← PyDecimal.of_str (py_str iamt_raw);
  tid ← dict_item transaction "id";
  tamt_raw ← dict_item transaction "amount";
  tamt ← PyDecimal.of_str (py_str tamt_raw);
  tdate_raw ← dict_item transaction "posted_at";
  idate ← as_optional_datetime (dict_get invoice "invoice_date");
  tdate ← as_datetime tdate_raw;
  idesc ← as_optional_str (dict_get invoice "description");
  inum ← as_optional_str (dict_get invoice "invoice_number");
  vendor ← as_optional_str (dict_get invoice "vendor_name");
  tdesc ← as_optional_str (dict_get transaction "description");
  Ok (mk_call (py_str iid) iamt idate idesc inum vendor
              (py_str tid) tamt tdate tdesc).

Definition score_pair (invoice transaction : gmap string pyval)
  : result MatchCandidate :=
  args ← pair_arguments invoice transaction;
  Ok (score_match partial_ratio self
        (arg_invoice_id args) (arg_invoice_amount args)
        (arg_invoice_date args) (arg_invoice_desc args)
        (arg_invoice_number args) (arg_vendor_name args)
        (arg_transaction_id args) (arg_transaction_amount args)
        (arg_transaction_date args) (arg_transaction_desc args)).

(** The inner loop: [invoice_candidates] for one invoice. *)
Fixpoint invoice_candidates (invoice : gmap string pyval)
    (transactions : list (gmap string pyval)) : result (list MatchCandidate) :=
  match transactions with
  | [] => Ok []
  | transaction :: rest =>
      if currency_differs invoice transaction then
        invoice_candidates invoice rest
      else
        candidate ← score_pair invoice transaction;
        others ← invoice_candidates invoice rest;
        Ok (candidate :: others)
  end.

(** What one invoice adds to [all_candidates]: its candidates sorted and
    cut by [[:top_n]]. *)
Definition retained (top_n : Z) (invoice : gmap string pyval)
    (transactions : list (gmap string pyval)) : result (list MatchCandidate) :=
  cands ← invoice_candidates invoice transactions;
  Ok (slice_to top_n (sort_desc cands)).

(** The outer loop: [all_candidates] before the final sort. *)
Fixpoint all_candidates (invoices transactions : list (gmap string pyval))
    (top_n : Z) : result (list MatchCandidate) :=
  match invoices with
  | [] => Ok []
  | invoice :: rest =>
      kept ← retained top_n invoice transactions;
      others ← all_candidates rest transactions top_n;
      Ok (kept ++ others)%list
  end.

Definition score_candidates (invoices transactions : list (gmap string pyval))
    (top_n : Z) : result (list MatchCandidate) :=
  all ← all_candidates invoices transactions top_n;
  Ok (sort_desc all).

End Batch.

(* ------------------------------------------------------------------ *)
(** ** Vocabulary of the statements and sample records *)

(** A configuration is read by the component scorers and by [score_match]
    through five of its six attributes. *)
Definition same_but_close_weight (s1 s2 : ReconciliationScorer) : Prop :=
  amount_exact_weight s1 = amount_exact_weight s2
  /\ date_proximity_weight s1 = date_proximity_weight s2
  /\ text_similarity_weight s1 = text_similarity_weight s2
  /\ amount_tolerance_percent s1 = amount_tolerance_percent s2
  /\ date_proximity_days s1 = date_proximity_days s2.


(** The records of [test_score_candidates_returns_top_n], the three
    transactions all in USD. *)
Definition sample_invoice : gmap string pyval :=
  <["id" := PStr "inv-1"]>
  (<["amount" := PStr "1000.00"]>
  (<["currency" := PStr "USD"]>
  (<["invoice_date" := PDatetime (PyDate.mk_datetime 2024 1 15 0 0 0 0 None)]>
  (<["description" := PStr "Invoice 1"]>
  (<["invoice_number" := PStr "INV-001"]>
  (<["vendor_name" := PNone]> ∅)))))).

(** Whether evaluating the arguments of the call raises. *)
Definition arguments_ok (invoice transaction : gmap string pyval) : bool :=
  match pair_arguments invoice transaction with
  | Ok _ => true
  | Raise _ => false
  end.

(** The transactions an invoice is scored against. *)
Definition admissible (invoice : gmap string pyval)
    (transactions : list (gmap string pyval)) : list (gmap string pyval) :=
  List.filter (fun t => negb (currency_differs invoice t)) transactions.

Definition sample_transaction (id amount : string) (posted_at : PyDate.datetime)
    (description : string) : gmap string pyval :=
  <["id" := PStr id]>
  (<["amount" := PStr amount]>
  (<["currency" := PStr "USD"]>
  (<["posted_at" := PDatetime posted_at]>
  (<["description" := PStr description]> ∅)))).

Definition sample_transactions : list (gmap string pyval) :=
  [ sample_transaction "txn-1" "1000.00"
      (PyDate.mk_datetime 2024 1 15 0 0 0 0 None) "Perfect match";
    sample_transaction "txn-2" "1010.00"
      (PyDate.mk_datetime 2024 1 16 0 0 0 0 None) "Close match";
    sample_transaction "txn-3" "2000.00"
      (PyDate.mk_datetime 2024 2 15 0 0 0 0 None) "Poor match" ].

(** The same invoice against one transaction in EUR, as in
    [test_currency_mismatch_skipped]. *)
Definition euro_transaction : gmap string pyval :=
  <["currency" := PStr "EUR"]>
    (sample_transaction "txn-9" "1000.00"
       (PyDate.mk_datetime 2024 1 15 0 0 0 0 None) "Payment").



(** A stand-in for [fuzz.partial_ratio] with the same interface, used to
    run the scorer on examples: 100 when the first text occurs in the
    second, 0 otherwise. *)
Definition sample_ratio (a b : string) : Z :=
  if PyStr.contains a b then 100%Z else 0%Z.

(* ------------------------------------------------------------------ *)
(** ** The GraphQL mutation of [app/schema.py] *)

(** [class InvoiceInput]. *)
Module InvoiceInput.
Record t : Type := mk {
  id : string;
  amount : string;
  currency : string;
  invoice_date : option PyDate.datetime;
  description : option string;
  invoice_number : option string;
  vendor_name : option string
}.
End InvoiceInput.

(** [class TransactionInput]. *)
Module TransactionInput.
Record t : Type := mk {
  id : string;
  amount : string;
  currency : string;
  posted_at : PyDate.datetime;
  description : option string
}.
End TransactionInput.

(** [class ScoreCandidatesInput]. *)
Record ScoreCandidatesInput : Type := mk_input {
  tenant_id : string;
  invoices : list InvoiceInput.t;
  transactions : list TransactionInput.t;
  top_n : Z
}.

(** [class ScoreCandidatesResponse] without [processing_time_ms], which is
    a wall-clock measurement.  [MatchCandidateType] has the fields of
    [MatchCandidate] and is filled field by field. *)
Record ScoreCandidatesResponse : Type := mk_response {
  candidates : list MatchCandidate;
  total_processed : nat
}.

(** An [Optional[str]] and an [Optional[datetime]] as dict values. *)
Definition of_optional_str (s : option string) : pyval :=
  match s with
  | Some s => PStr s
  | None => PNone
  end.

Definition of_optional_datetime (d : option PyDate.datetime) : pyval :=
  match d with
  | Some d => PDatetime d
  | None => PNone
  end.

(** The dict built for one invoice. *)
Definition invoice_dict (inv : InvoiceInput.t) : gmap string pyval :=
  <["id" := PStr (InvoiceInput.id inv)]>
  (<["amount" := PStr (InvoiceInput.amount inv)]>
  (<["currency" := PStr (InvoiceInput.currency inv)]>
  (<["invoice_date" := of_optional_datetime (InvoiceInput.invoice_date inv)]>
  (<["description" := of_optional_str (InvoiceInput.description inv)]>
  (<["invoice_number" := of_optional_str (InvoiceInput.invoice_number inv)]>
  (<["vendor_name" := of_optional_str (InvoiceInput.vendor_name inv)]> ∅)))))).

(** The dict built for one transaction. *)
Definition transaction_dict (txn : TransactionInput.t) : gmap string pyval :=
  <["id" := PStr (TransactionInput.id txn)]>
  (<["amount" := PStr (TransactionInput.amount txn)]>
  (<["currency" := PStr (TransactionInput.currency txn)]>
  (<["posted_at" := PDatetime (TransactionInput.posted_at txn)]>
  (<["description" := of_optional_str (TransactionInput.description txn)]> ∅)))).

(** [Mutation.score_candidates]: the scorer is taken from the context, or
    built with the defaults when the context has none; the inputs are
    turned into dicts and handed to the scorer; the response counts every
    pair of the cross product. *)
Definition mutation_score_candidates (partial_ratio : string -> string -> Z)
    (context_scorer : option ReconciliationScorer)
    (input : ScoreCandidatesInput) : result ScoreCandidatesResponse :=
  let scorer := default default_scorer context_scorer in
  let invoice_dicts := map invoice_dict (invoices input) in
  let transaction_dicts := map transaction_dict (transactions input) in
  found ← score_candidates partial_ratio scorer invoice_dicts transaction_dicts
                           (top_n input);
  Ok (mk_response found
        (length invoice_dicts * length transaction_dicts)%nat).

(* ------------------------------------------------------------------ *)
(** ** Further vocabulary *)

(** [dt.replace(tzinfo=tz)]. *)
Definition with_tzinfo (d : PyDate.datetime) (tz : option Z) : PyDate.datetime :=
  PyDate.mk_datetime (PyDate.year d) (PyDate.month d) (PyDate.day d)
    (PyDate.hour d) (PyDate.minute d) (PyDate.second d)
    (PyDate.microsecond d) tz.

(** A list of candidates ranked best first. *)
Definition descending (l : list MatchCandidate) : Prop :=
  StronglySorted (fun c d => score d <= score c) l.

(** The candidates of a list whose score equals [q]. *)
Definition with_score (q : Q) (l : list MatchCandidate) : list MatchCandidate :=
  List.filter (fun c => Qeq_bool (score c) q) l.

(** The pairs of the cross product that pass the currency test, invoice
    by invoice. *)
Definition admissible_pairs (invoices transactions : list (gmap string pyval))
  : list (gmap string pyval * gmap string pyval) :=
  flat_map (fun invoice => map (pair invoice) (admissible invoice transactions))
           invoices.

(** [fuzz.partial_ratio] returns a percentage. *)
Definition percentage (partial_ratio : string -> string -> Z) : Prop :=
  forall a b, (0 <= partial_ratio a b <= 100)%Z.

(** All three weights of the weighted sum are non-negative. *)
Definition nonnegative_weights (self : ReconciliationScorer) : Prop :=
  0 <= amount_exact_weight self
  /\ 0 <= date_proximity_weight self
  /\ 0 <= text_similarity_weight self.

(** The input of [test_score_candidates_mutation]. *)
Definition sample_input : ScoreCandidatesInput :=
  mk_input "test-tenant"
    [ InvoiceInput.mk "inv-1" "1000.00" "USD"
        (Some (PyDate.mk_datetime 2024 1 15 0 0 0 0 (Some 0%Z)))
        (Some "Test invoice") (Some "INV-001") None ]
    [ TransactionInput.mk "txn-1" "1000.00" "USD"
        (PyDate.mk_datetime 2024 1 15 10 0 0 0 (Some 0%Z))
        (Some "Payment for INV-001") ]
    5.


(** Division by the two constants of the decay formulas, written as a
    product so that linear arithmetic applies. *)
Ltac by_constants :=
  repeat match goal with
         | |- context [?p / 100] => change (p / 100) with (p * (1 # 100)) in *
         | |- context [?p / 30] => change (p / 30) with (p * (1 # 30)) in *
         | H : context [?p / 100] |- _ =>
             change (p / 100) with (p * (1 # 100)) in *
         | H : context [?p / 30] |- _ =>
             change (p / 30) with (p * (1 # 30)) in *
         end.

(* ------------------------------------------------------------------ *)
(** ** Single-pair scoring *)

Lemma py_min_Qmin (a b : Q) : PyNum.min a b == Qmin a b.
Proof.
  unfold PyNum.min. destruct (Qlt_le_dec b a) as [Hlt | Hle].
  - symmetry. apply Q.min_r. apply Qlt_le_weak. exact Hlt.
  - symmetry. apply Q.min_l. exact Hle.
Qed.

Lemma py_max_Qmax (a b : Q) : PyNum.max a b == Qmax a b.
Proof.
  unfold PyNum.max. destruct (Qlt_le_dec a b) as [Hlt | Hle].
  - symmetry. apply Q.max_r. apply Qlt_le_weak. exact Hlt.
  - symmetry. apply Q.max_l. exact Hle.
Qed.

(** The fields of the candidate built by [score_match], read off the three
    component results. *)
Lemma score_match_fields (partial_ratio : string -> string -> Z)
    (self : ReconciliationScorer) (iid : string) (iamt : Q)
    (idate : option PyDate.datetime) (idesc inum vendor : option string)
    (tid : string) (tamt : Q) (tdate : PyDate.datetime)
    (tdesc : option string) :
  let a := calculate_amount_score self iamt tamt in
  let d := calculate_date_score self idate tdate in
  let t := calculate_text_score partial_ratio idesc tdesc inum vendor in
  let total :=
    PyNum.min 100
      ((fst a * amount_exact_weight self + fst d * date_proximity_weight self
        + fst t * text_similarity_weight self) * 100) in
  score_match partial_ratio self iid iamt idate idesc inum vendor
              tid tamt tdate tdesc
  = mk_candidate iid tid total (fst a * 100) (fst d * 100) (fst t * 100)
      (PyStr.join " | "
         [ "Amount: " ++ snd a; "Date: " ++ snd d; "Text: " ++ snd t;
           "Overall confidence: " ++ PyNum.format_fixed 1 total ++ "%" ]).
Proof.
  intros a d t total. subst total. unfold score_match.
  fold a d t. destruct a as [sa ea], d as [sd ed], t as [st et].
  reflexivity.
Qed.

(** C1: the overall score of the candidate returned by [score_match] is
    min(100, 100 x (amount_score x amount_exact_weight + date_score x
    date_proximity_weight + text_score x text_similarity_weight)), the
    three sub-scores being those the component scorers return on the same
    inputs; it is a function of the inputs and the configuration only. *)
Theorem score_match_weighted_sum (partial_ratio : string -> string -> Z)
    (self : ReconciliationScorer) (iid : string) (iamt : Q)
    (idate : option PyDate.datetime) (idesc inum vendor : option string)
    (tid : string) (tamt : Q) (tdate : PyDate.datetime)
    (tdesc : option string) :
  let a := fst (calculate_amount_score self iamt tamt) in
  let d := fst (calculate_date_score self idate tdate) in
  let t := fst (calculate_text_score partial_ratio idesc tdesc inum vendor) in
  score (score_match partial_ratio self iid iamt idate idesc inum vendor
                     tid tamt tdate tdesc)
  == Qmin 100 (100 * (a * amount_exact_weight self
                      + d * date_proximity_weight self
                      + t * text_similarity_weight self)).
Proof.
  intros a d t. rewrite score_match_fields. cbn [score].
  rewrite py_min_Qmin. apply Q.min_compat; [reflexivity |].
  subst a d t. ring.
Qed.


(** [calculate_amount_score] reads the tolerance only, and
    [calculate_date_score] the proximity window only. *)
Lemma amount_score_reads_tolerance (s1 s2 : ReconciliationScorer) (a b : Q) :
  amount_tolerance_percent s1 = amount_tolerance_percent s2 ->
  calculate_amount_score s1 a b = calculate_amount_score s2 a b.
Proof.
  intros Htol. unfold calculate_amount_score. rewrite Htol. reflexivity.
Qed.

Lemma date_score_reads_window (s1 s2 : ReconciliationScorer)
    (idate : option PyDate.datetime) (tdate : PyDate.datetime) :
  date_proximity_days s1 = date_proximity_days s2 ->
  calculate_date_score s1 idate tdate = calculate_date_score s2 idate tdate.
Proof.
  intros Hdays. unfold calculate_date_score, date_score_of_days.
  rewrite Hdays. reflexivity.
Qed.

(** C8: two configurations that differ only in [amount_close_weight] give
    the same candidate on every invoice/transaction pair. *)
Theorem amount_close_weight_unused (partial_ratio : string -> string -> Z)
    (s1 s2 : ReconciliationScorer) (iid : string) (iamt : Q)
    (idate : option PyDate.datetime) (idesc inum vendor : option string)
    (tid : string) (tamt : Q) (tdate : PyDate.datetime)
    (tdesc : option string) :
  same_but_close_weight s1 s2 ->
  score_match partial_ratio s1 iid iamt idate idesc inum vendor
              tid tamt tdate tdesc
  = score_match partial_ratio s2 iid iamt idate idesc inum vendor
                tid tamt tdate tdesc.
Proof.
  intros (Hae & Hdw & Htw & Htol & Hdays).
  rewrite !score_match_fields.
  rewrite (amount_score_reads_tolerance s1 s2 iamt tamt Htol).
  rewrite (date_score_reads_window s1 s2 idate tdate Hdays).
  rewrite Hae, Hdw, Htw. reflexivity.
Qed.

(* ------------------------------------------------------------------ *)
(** ** Text score: empty strings *)





(* ------------------------------------------------------------------ *)
(** ** Sorting and slicing *)

Lemma insert_desc_In (c x : MatchCandidate) (l : list MatchCandidate) :
  In x (insert_desc c l) <-> x = c \/ In x l.
Proof.
  induction l as [| d rest IH]; cbn.
  - intuition.
  - destruct (Qlt_le_dec (score c) (score d)); cbn.
    + rewrite IH. intuition.
    + intuition.
Qed.

Lemma sort_desc_In (x : MatchCandidate) (l : list MatchCandidate) :
  In x (sort_desc l) <-> In x l.
Proof.
  induction l as [| c rest IH]; cbn.
  - reflexivity.
  - fold (sort_desc rest). rewrite insert_desc_In, IH. intuition.
Qed.

Lemma insert_desc_length (c : MatchCandidate) (l : list MatchCandidate) :
  length (insert_desc c l) = S (length l).
Proof.
  induction l as [| d rest IH]; cbn.
  - reflexivity.
  - destruct (Qlt_le_dec (score c) (score d)); cbn; [rewrite IH |]; reflexivity.
Qed.

Lemma sort_desc_length (l : list MatchCandidate) :
  length (sort_desc l) = length l.
Proof.
  induction l as [| c rest IH]; cbn.
  - reflexivity.
  - fold (sort_desc rest). rewrite insert_desc_length, IH. reflexivity.
Qed.

Lemma firstn_subset {A : Type} (k : nat) (l : list A) (x : A) :
  In x (firstn k l) -> In x l.
Proof.
  revert l. induction k as [| k IH]; intros [| y l]; cbn; try tauto.
  intros [-> | Hin]; [left; reflexivity | right; apply IH, Hin].
Qed.

Lemma slice_to_In {A : Type} (n : Z) (l : list A) (x : A) :
  In x (slice_to n l) -> In x l.
Proof.
  unfold slice_to. destruct (n <? 0)%Z; apply firstn_subset.
Qed.

Lemma slice_to_length {A : Type} (n : Z) (l : list A) :
  (0 <= n)%Z -> (Z.of_nat (length (slice_to n l)) <= n)%Z.
Proof.
  intros Hn. unfold slice_to.
  destruct (n <? 0)%Z eqn:E; [apply Z.ltb_lt in E; lia |].
  pose proof (firstn_le_length (Z.to_nat n) l).
  rewrite length_firstn. lia.
Qed.

Lemma slice_to_all {A : Type} (n : Z) (l : list A) :
  (Z.of_nat (length l) <= n)%Z -> slice_to n l = l.
Proof.
  intros Hn. unfold slice_to.
  destruct (n <? 0)%Z eqn:E; [apply Z.ltb_lt in E; lia |].
  apply firstn_all2. lia.
Qed.

(** A negative bound drops that many candidates from the end. *)
Lemma slice_to_negative {A : Type} (n : Z) (l : list A) :
  (n < 0)%Z ->
  length (slice_to n l) = Z.to_nat (Z.of_nat (length l) + n).
Proof.
  intros Hn. unfold slice_to.
  apply Z.ltb_lt in Hn. rewrite Hn.
  rewrite length_firstn. lia.
Qed.

(* ------------------------------------------------------------------ *)
(** ** Batch scoring: the currency filter *)

Section BatchFacts.

Variable partial_ratio : string -> string -> Z.
Variable self : ReconciliationScorer.

Local Abbreviation inner := (invoice_candidates partial_ratio self).
Local Abbreviation pair := (score_pair partial_ratio self).

Lemma invoice_candidates_skip (invoice transaction : gmap string pyval)
    (rest : list (gmap string pyval)) :
  currency_differs invoice transaction = true ->
  inner invoice (transaction :: rest) = inner invoice rest.
Proof using Type.
  intros Hdiff. cbn. rewrite Hdiff. reflexivity.
Qed.

Lemma invoice_candidates_keep (invoice transaction : gmap string pyval)
    (rest : list (gmap string pyval)) :
  currency_differs invoice transaction = false ->
  inner invoice (transaction :: rest)
  = (candidate ← pair invoice transaction;
     others ← inner invoice rest;
     Ok (candidate :: others)).
Proof using Type.
  intros Hsame. cbn. rewrite Hsame. reflexivity.
Qed.

Lemma invoice_candidates_skip_middle (invoice transaction : gmap string pyval)
    (before after : list (gmap string pyval)) :
  currency_differs invoice transaction = true ->
  inner invoice (before ++ transaction :: after)
  = inner invoice (before ++ after).
Proof using Type.
  intros Hdiff. induction before as [| t before IH].
  - apply invoice_candidates_skip, Hdiff.
  - cbn. rewrite IH. reflexivity.
Qed.

(** Every candidate of an invoice comes from a transaction that passed the
    currency test. *)
Lemma invoice_candidates_sound (invoice : gmap string pyval)
    (transactions : list (gmap string pyval)) :
  forall cands c,
    inner invoice transactions = Ok cands -> In c cands ->
    exists transaction,
      In transaction transactions
      /\ currency_differs invoice transaction = false
      /\ pair invoice transaction = Ok c.
Proof using Type.
  induction transactions as [| t rest IH]; intros cands c Hrun Hin.
  - cbn in Hrun. injection Hrun as <-. destruct Hin.
  - destruct (currency_differs invoice t) eqn:Hcur.
    + rewrite invoice_candidates_skip in Hrun by exact Hcur.
      destruct (IH _ _ Hrun Hin) as (t' & Ht' & Hsame & Hpair).
      exists t'. split; [right; exact Ht' | split; assumption].
    + rewrite invoice_candidates_keep in Hrun by exact Hcur.
      destruct (pair invoice t) as [c0 |] eqn:Hp; cbn in Hrun; [| discriminate].
      destruct (inner invoice rest) as [others |] eqn:Hr; cbn in Hrun;
        [| discriminate].
      injection Hrun as <-. destruct Hin as [<- | Hin].
      * exists t. split; [left; reflexivity | split; assumption].
      * destruct (IH _ _ eq_refl Hin) as (t' & Ht' & Hsame & Hpair).
        exists t'. split; [right; exact Ht' | split; assumption].
Qed.



(** The outer loop succeeds exactly when every invoice does, and collects
    what each invoice retains. *)
Lemma all_candidates_inv (invoices transactions : list (gmap string pyval))
    (top_n : Z) :
  forall all,
    all_candidates partial_ratio self invoices transactions top_n = Ok all ->
    (forall c, In c all ->
       exists invoice kept,
         In invoice invoices
         /\ retained partial_ratio self top_n invoice transactions = Ok kept
         /\ In c kept)
    /\ (forall invoice, In invoice invoices ->
          exists kept,
            retained partial_ratio self top_n invoice transactions = Ok kept
            /\ forall c, In c kept -> In c all).
Proof using Type.
  induction invoices as [| inv rest IH]; intros all Hrun.
  - cbn in Hrun. injection Hrun as <-. split.
    + intros c [].
    + intros invoice [].
  - cbn in Hrun.
    destruct (retained partial_ratio self top_n inv transactions)
      as [kept |] eqn:Hk; cbn in Hrun; [| discriminate].
    destruct (all_candidates partial_ratio self rest transactions top_n)
      as [others |] eqn:Ho; cbn in Hrun; [| discriminate].
    injection Hrun as <-. destruct (IH _ eq_refl) as [IHs IHc]. split.
    + intros c Hin. apply in_app_or in Hin. destruct Hin as [Hin | Hin].
      * exists inv, kept. split; [left; reflexivity | split; assumption].
      * destruct (IHs c Hin) as (i & k & Hi & Hr & Hc).
        exists i, k. split; [right; exact Hi | split; assumption].
    + intros invoice [<- | Hin].
      * exists kept. split; [exact Hk |].
        intros c Hc. apply in_or_app. left. exact Hc.
      * destruct (IHc invoice Hin) as (k & Hr & Hsub).
        exists k. split; [exact Hr |].
        intros c Hc. apply in_or_app. right. apply Hsub, Hc.
Qed.

Lemma retained_inv (top_n : Z) (invoice : gmap string pyval)
    (transactions : list (gmap string pyval)) (kept : list MatchCandidate) :
  retained partial_ratio self top_n invoice transactions = Ok kept ->
  exists cands,
    inner invoice transactions = Ok cands
    /\ kept = slice_to top_n (sort_desc cands).
Proof using Type.
  unfold retained. intros Hrun.
  destruct (inner invoice transactions) as [cands |]; cbn in Hrun;
    [| discriminate].
  injection Hrun as <-. exists cands. split; reflexivity.
Qed.

Lemma score_candidates_inv (invoices transactions : list (gmap string pyval))
    (top_n : Z) (out : list MatchCandidate) :
  score_candidates partial_ratio self invoices transactions top_n = Ok out ->
  exists all,
    all_candidates partial_ratio self invoices transactions top_n = Ok all
    /\ out = sort_desc all.
Proof using Type.
  unfold score_candidates. intros Hrun.
  destruct (all_candidates partial_ratio self invoices transactions top_n)
    as [all |]; cbn in Hrun; [| discriminate].
  injection Hrun as <-. exists all. split; reflexivity.
Qed.

End BatchFacts.

(** A transaction that fails the currency test against every invoice can
    be dropped from the batch: the run, errors included, is the same. *)
Lemma all_candidates_skip_middle (partial_ratio : string -> string -> Z)
    (self : ReconciliationScorer)
    (invoices before after : list (gmap string pyval))
    (transaction : gmap string pyval) (top_n : Z) :
  (forall invoice, In invoice invoices ->
     currency_differs invoice transaction = true) ->
  all_candidates partial_ratio self invoices (before ++ transaction :: after) top_n
  = all_candidates partial_ratio self invoices (before ++ after) top_n.
Proof.
  intros Hdiff. induction invoices as [| inv rest IH].
  - reflexivity.
  - cbn. unfold retained.
    rewrite invoice_candidates_skip_middle by (apply Hdiff; left; reflexivity).
    rewrite IH by (intros i Hi; apply Hdiff; right; exact Hi).
    reflexivity.
Qed.

(** C6: a pair whose currencies differ is skipped.  The inner loop moves
    on without calling [score_match] (whatever the rest of the transaction
    holds); every candidate of the output was scored from an invoice and a
    transaction of the batch that passed the currency test; and a
    transaction that differs in currency from every invoice can be removed
    from the batch without changing the result. *)
Theorem currency_mismatch_skipped (partial_ratio : string -> string -> Z)
    (self : ReconciliationScorer) :
  (forall invoice transaction rest,
     currency_differs invoice transaction = true ->
     invoice_candidates partial_ratio self invoice (transaction :: rest)
     = invoice_candidates partial_ratio self invoice rest)
  /\ (forall invoices transactions top_n out c,
        score_candidates partial_ratio self invoices transactions top_n = Ok out ->
        In c out ->
        exists invoice transaction,
          In invoice invoices /\ In transaction transactions
          /\ currency_differs invoice transaction = false
          /\ score_pair partial_ratio self invoice transaction = Ok c)
  /\ (forall invoices before after transaction top_n,
        (forall invoice, In invoice invoices ->
           currency_differs invoice transaction = true) ->
        score_candidates partial_ratio self invoices
                         (before ++ transaction :: after) top_n
        = score_candidates partial_ratio self invoices (before ++ after) top_n).
Proof.
  split; [| split].
  - intros invoice transaction rest Hdiff.
    apply invoice_candidates_skip, Hdiff.
  - intros invoices transactions top_n out c Hrun Hin.
    apply score_candidates_inv in Hrun. destruct Hrun as (all & Hall & ->).
    apply (proj1 (sort_desc_In _ _)) in Hin.
    destruct (all_candidates_inv _ _ _ _ _ _ Hall) as [Hsound _].
    destruct (Hsound c Hin) as (invoice & kept & Hinv & Hkept & Hc).
    apply retained_inv in Hkept. destruct Hkept as (cands & Hcands & ->).
    apply slice_to_In in Hc. apply (proj1 (sort_desc_In _ _)) in Hc.
    destruct (invoice_candidates_sound _ _ _ _ _ _ Hcands Hc)
      as (transaction & Htx & Hsame & Hpair).
    exists invoice, transaction. repeat split; assumption.
  - intros invoices before after transaction top_n Hdiff.
    unfold score_candidates.
    rewrite all_candidates_skip_middle by exact Hdiff. reflexivity.
Qed.


(* ------------------------------------------------------------------ *)
(** ** Amount score *)

(** Equal amounts score 1. *)
Lemma amount_score_equal (self : ReconciliationScorer) (a b : Q) :
  a == b -> calculate_amount_score self a b = (1, "Exact amount match").
Proof.
  intros Heq. unfold calculate_amount_score.
  apply Qeq_bool_iff in Heq. rewrite Heq. reflexivity.
Qed.

(** Within the tolerance band the score is [1 - (p / tolerance) * 0.5]. *)
Lemma amount_score_within (self : ReconciliationScorer) (a b : Q) :
  ~ a == b ->
  percent_diff a b <= amount_tolerance_percent self ->
  fst (calculate_amount_score self a b)
  = 1 - (percent_diff a b / amount_tolerance_percent self) * (1 # 2).
Proof.
  intros Hne Hle. unfold calculate_amount_score.
  destruct (Qeq_bool a b) eqn:E; [apply Qeq_bool_iff in E; contradiction |].
  apply Qle_bool_iff in Hle. rewrite Hle. reflexivity.
Qed.

(** Beyond the tolerance band it is [max(0, 1 - p / 100)]. *)
Lemma amount_score_beyond (self : ReconciliationScorer) (a b : Q) :
  ~ a == b ->
  amount_tolerance_percent self < percent_diff a b ->
  fst (calculate_amount_score self a b)
  = PyNum.max 0 (1 - percent_diff a b / 100).
Proof.
  intros Hne Hlt. unfold calculate_amount_score.
  destruct (Qeq_bool a b) eqn:E; [apply Qeq_bool_iff in E; contradiction |].
  destruct (Qle_bool (percent_diff a b) (amount_tolerance_percent self)) eqn:L.
  - apply Qle_bool_iff in L. exfalso. apply (Qlt_not_le _ _ Hlt L).
  - reflexivity.
Qed.

(** C2: at the default configuration, with the average held at 100, the
    pair (99, 101) differs by 2 and scores 0.5, the pair (98.5, 101.5)
    differs by 3 and scores 0.97: the larger difference gets the larger
    score, so the amount score is not non-increasing in the difference. *)
Theorem amount_score_rises_past_tolerance :
  (99 + 101) / 2 == ((985 # 10) + (1015 # 10)) / 2
  /\ Qabs (99 - 101) <= Qabs ((985 # 10) - (1015 # 10))
  /\ fst (calculate_amount_score default_scorer 99 101) == 1 # 2
  /\ snd (calculate_amount_score default_scorer 99 101)
     = "Amount within 2.0% tolerance"
  /\ fst (calculate_amount_score default_scorer (985 # 10) (1015 # 10))
     == 97 # 100
  /\ snd (calculate_amount_score default_scorer (985 # 10) (1015 # 10))
     = "Amount differs by 3.0%"
  /\ fst (calculate_amount_score default_scorer 99 101)
     < fst (calculate_amount_score default_scorer (985 # 10) (1015 # 10)).
Proof.
  repeat split; vm_compute; congruence.
Qed.

(* ------------------------------------------------------------------ *)
(** ** Date score *)

(** A zero day difference scores 1. *)
Lemma date_score_same_day (self : ReconciliationScorer)
    (invoice_date transaction_date : PyDate.datetime) :
  days_diff invoice_date transaction_date = 0%Z ->
  calculate_date_score self (Some invoice_date) transaction_date
  = (1, "Same day transaction").
Proof.
  intros Hzero. unfold calculate_date_score, date_score_of_days.
  rewrite Hzero. reflexivity.
Qed.

(** Beyond the window the score is [max(0, 1 - days / 30)], whatever the
    window is. *)
Lemma date_score_beyond (self : ReconciliationScorer) (days : Z) :
  (0 < days)%Z -> (date_proximity_days self < days)%Z ->
  fst (date_score_of_days self days) = PyNum.max 0 (1 - inject_Z days / 30).
Proof.
  intros Hpos Hout. unfold date_score_of_days.
  destruct (days =? 0)%Z eqn:E0; [apply Z.eqb_eq in E0; lia |].
  destruct (days <=? date_proximity_days self)%Z eqn:E1;
    [apply Z.leb_le in E1; lia |].
  reflexivity.
Qed.

(** C3: at the default configuration (window of 3 days) an invoice dated
    2024-01-15 and a transaction posted 2024-01-19 are 4 days apart, beyond
    the window, and the date score is 1 - 4/30, above the in-window floor
    0.5 reached at 3 days. *)
Theorem date_score_rises_past_window :
  let invoice_date := PyDate.mk_datetime 2024 1 15 0 0 0 0 None in
  let at_window := PyDate.mk_datetime 2024 1 18 0 0 0 0 None in
  let past_window := PyDate.mk_datetime 2024 1 19 0 0 0 0 None in
  days_diff invoice_date at_window = 3%Z
  /\ days_diff invoice_date past_window = 4%Z
  /\ (date_proximity_days default_scorer < 4)%Z
  /\ fst (calculate_date_score default_scorer (Some invoice_date) at_window)
     == 1 # 2
  /\ fst (calculate_date_score default_scorer (Some invoice_date) past_window)
     == 26 # 30
  /\ snd (calculate_date_score default_scorer (Some invoice_date) past_window)
     = "Transaction 4 days from invoice date"
  /\ ~ fst (calculate_date_score default_scorer (Some invoice_date) past_window)
       < 1 # 2.
Proof.
  repeat split; vm_compute; congruence.
Qed.

(** [days_diff] does not see the time zone of either side. *)
Lemma days_diff_ignores_tzinfo (a b : PyDate.datetime) :
  days_diff a b = days_diff (PyDate.strip_tz a) (PyDate.strip_tz b).
Proof.
  destruct a as [ya ma da ha mia sa ua [oa |]],
           b as [yb mb db hb mib sb ub [ob |]]; reflexivity.
Qed.

(** C5: the invoice is dated 2024-01-15T00:00:00Z and the transaction
    posted 2024-01-15T10:00:00Z, the same calendar date.  The difference
    is minus ten hours, whose [days] is -1, so the day difference is 1,
    the score 1 - (1/3) * 0.5 and the explanation not the same-day one;
    with the two timestamps exchanged the day difference is 0. *)
Theorem same_date_counted_as_one_day :
  let invoice_date := PyDate.mk_datetime 2024 1 15 0 0 0 0 (Some 0%Z) in
  let posted_at := PyDate.mk_datetime 2024 1 15 10 0 0 0 (Some 0%Z) in
  PyDate.same_date invoice_date posted_at
  /\ PyDate.sub_days (PyDate.strip_tz invoice_date) (PyDate.strip_tz posted_at)
     = (-1)%Z
  /\ days_diff invoice_date posted_at = 1%Z
  /\ days_diff posted_at invoice_date = 0%Z
  /\ fst (calculate_date_score default_scorer (Some invoice_date) posted_at)
     == 5 # 6
  /\ snd (calculate_date_score default_scorer (Some invoice_date) posted_at)
     = "Transaction 1 days from invoice date"
  /\ calculate_date_score default_scorer (Some posted_at) invoice_date
     = (1, "Same day transaction").
Proof.
  repeat split; vm_compute; congruence.
Qed.

(* ------------------------------------------------------------------ *)
(** ** Top-N truncation *)

(** With a non-negative bound an invoice retains at most [top_n]
    candidates, and none at all when the bound is 0. *)
Lemma retained_at_most_top_n (partial_ratio : string -> string -> Z)
    (self : ReconciliationScorer) (top_n : Z) (invoice : gmap string pyval)
    (transactions : list (gmap string pyval)) (kept : list MatchCandidate) :
  (0 <= top_n)%Z ->
  retained partial_ratio self top_n invoice transactions = Ok kept ->
  (Z.of_nat (length kept) <= top_n)%Z.
Proof.
  intros Hn Hrun. apply retained_inv in Hrun.
  destruct Hrun as (cands & _ & ->). apply slice_to_length, Hn.
Qed.

(** With a negative bound it retains all its candidates but the last
    [- top_n]. *)
Lemma retained_negative_top_n (partial_ratio : string -> string -> Z)
    (self : ReconciliationScorer) (top_n : Z) (invoice : gmap string pyval)
    (transactions : list (gmap string pyval))
    (cands : list MatchCandidate) :
  (top_n < 0)%Z ->
  invoice_candidates partial_ratio self invoice transactions = Ok cands ->
  exists kept,
    retained partial_ratio self top_n invoice transactions = Ok kept
    /\ length kept = Z.to_nat (Z.of_nat (length cands) + top_n).
Proof.
  intros Hn Hrun. unfold retained. rewrite Hrun. cbn.
  eexists. split; [reflexivity |].
  rewrite slice_to_negative by exact Hn.
  rewrite sort_desc_length. reflexivity.
Qed.

(** When the arguments of every admissible pair evaluate, the inner loop
    succeeds with one candidate per admissible transaction. *)
Lemma invoice_candidates_count (partial_ratio : string -> string -> Z)
    (self : ReconciliationScorer) (invoice : gmap string pyval)
    (transactions : list (gmap string pyval)) :
  forallb (arguments_ok invoice) (admissible invoice transactions) = true ->
  exists cands,
    invoice_candidates partial_ratio self invoice transactions = Ok cands
    /\ length cands = length (admissible invoice transactions).
Proof.
  unfold admissible.
  induction transactions as [| t rest IH]; intros Hok.
  - exists []. split; reflexivity.
  - cbn [List.filter] in Hok |- *. cbn [invoice_candidates].
    destruct (currency_differs invoice t); cbn [negb] in Hok |- *.
    + apply IH, Hok.
    + cbn [forallb] in Hok. apply andb_prop in Hok. destruct Hok as [Ht Hrest].
      destruct (IH Hrest) as (cands & Hrun & Hlen).
      unfold score_pair, arguments_ok in *.
      destruct (pair_arguments invoice t) as [args |]; [| discriminate Ht].
      rewrite Hrun. cbn. eexists. split; [reflexivity |].
      cbn. rewrite Hlen. reflexivity.
Qed.

(** C4: with [top_n = -1] the slice [[:top_n]] drops the last candidate
    only: the invoice of the test batch, which has three admissible
    transactions, retains two candidates and the batch returns two, for
    any text-similarity function, where the claim has none retained. *)
Theorem negative_top_n_retains_candidates
    (partial_ratio : string -> string -> Z) :
  exists kept out,
    retained partial_ratio default_scorer (-1) sample_invoice sample_transactions
    = Ok kept
    /\ length kept = 2%nat
    /\ score_candidates partial_ratio default_scorer
         [sample_invoice] sample_transactions (-1) = Ok out
    /\ length out = 2%nat.
Proof.
  destruct (invoice_candidates_count partial_ratio default_scorer
              sample_invoice sample_transactions)
    as (cands & Hcands & Hcount); [vm_compute; reflexivity |].
  assert (Hthree : length cands = 3%nat)
    by (rewrite Hcount; vm_compute; reflexivity).
  destruct (retained_negative_top_n partial_ratio default_scorer (-1)
              sample_invoice sample_transactions cands)
    as (kept & Hkept & Hlen); [lia | exact Hcands |].
  rewrite Hthree in Hlen.
  exists kept, (sort_desc (kept ++ [])).
  split; [exact Hkept |]. split; [exact Hlen |]. split.
  - unfold score_candidates. cbn [all_candidates]. rewrite Hkept. reflexivity.
  - rewrite sort_desc_length, length_app, Hlen. reflexivity.
Qed.

(* ------------------------------------------------------------------ *)
(** ** Monotonicity inside each band *)

(** X6: Inside the tolerance band a larger percentage difference never scores
    higher. *)
Lemma amount_score_monotone_within (self : ReconciliationScorer)
    (a1 b1 a2 b2 : Q) :
  ~ a1 == b1 -> ~ a2 == b2 ->
  0 < amount_tolerance_percent self ->
  percent_diff a1 b1 <= percent_diff a2 b2 ->
  percent_diff a2 b2 <= amount_tolerance_percent self ->
  fst (calculate_amount_score self a2 b2)
  <= fst (calculate_amount_score self a1 b1).
Proof.
  intros Hne1 Hne2 Htol Hle Hin.
  rewrite (amount_score_within self a1 b1 Hne1)
    by (eapply Qle_trans; eassumption).
  rewrite (amount_score_within self a2 b2 Hne2) by exact Hin.
  apply Qplus_le_r. apply Qopp_le_compat.
  apply Qmult_le_compat_r; [| discriminate].
  apply Qmult_le_compat_r; [exact Hle |].
  apply Qinv_le_0_compat, Qlt_le_weak, Htol.
Qed.

(** X7: Beyond the tolerance band, too, a larger percentage difference never
    scores higher. *)
Lemma amount_score_monotone_beyond (self : ReconciliationScorer)
    (a1 b1 a2 b2 : Q) :
  ~ a1 == b1 -> ~ a2 == b2 ->
  amount_tolerance_percent self < percent_diff a1 b1 ->
  percent_diff a1 b1 <= percent_diff a2 b2 ->
  fst (calculate_amount_score self a2 b2)
  <= fst (calculate_amount_score self a1 b1).
Proof.
  intros Hne1 Hne2 Hout Hle.
  rewrite (amount_score_beyond self a1 b1 Hne1) by exact Hout.
  rewrite (amount_score_beyond self a2 b2 Hne2)
    by (eapply Qlt_le_trans; eassumption).
  rewrite !py_max_Qmax. apply Q.max_le_compat_l.
  apply Qplus_le_r. apply Qopp_le_compat.
  apply Qmult_le_compat_r; [exact Hle | discriminate].
Qed.

(** X9: Beyond the window the date score is below 0.5 exactly from 16 days
    on, and 0 from 30 days on. *)
Lemma date_score_beyond_floor (self : ReconciliationScorer) (days : Z) :
  (0 < days)%Z -> (date_proximity_days self < days)%Z ->
  (fst (date_score_of_days self days) < 1 # 2 <-> (15 < days)%Z)
  /\ ((30 <= days)%Z -> fst (date_score_of_days self days) == 0).
Proof.
  intros Hpos Hout. rewrite (date_score_beyond self days Hpos Hout).
  unfold PyNum.max.
  destruct (Qlt_le_dec 0 (1 - inject_Z days / 30)) as [Hlt | Hle].
  - unfold Qlt, Qle in *. cbn in *. split; [split; intros H; lia | lia].
  - unfold Qlt, Qle in *. cbn in *.
    split; [split; intros H; lia | reflexivity].
Qed.

(* ------------------------------------------------------------------ *)
(** ** The statements at concrete inputs *)


Lemma amount_close_weight_unused_witness :
  same_but_close_weight default_scorer
    (with_amount_close_weight default_scorer (9 # 10))
  /\ score_match sample_ratio default_scorer
       "inv-1" 1000 None (Some "Office supplies") None None
       "txn-1" 1010 (PyDate.mk_datetime 2024 1 16 0 0 0 0 None)
       (Some "office supplies and more")
     = score_match sample_ratio
         (with_amount_close_weight default_scorer (9 # 10))
         "inv-1" 1000 None (Some "Office supplies") None None
         "txn-1" 1010 (PyDate.mk_datetime 2024 1 16 0 0 0 0 None)
         (Some "office supplies and more").
Proof.
  assert (H : same_but_close_weight default_scorer
                (with_amount_close_weight default_scorer (9 # 10)))
    by (repeat split; reflexivity).
  split; [exact H |].
  apply amount_close_weight_unused. exact H.
Defined.


Lemma currency_mismatch_skipped_witness :
  currency_differs sample_invoice euro_transaction = true
  /\ invoice_candidates sample_ratio default_scorer sample_invoice
       (euro_transaction :: sample_transactions)
     = invoice_candidates sample_ratio default_scorer sample_invoice
         sample_transactions
  /\ score_candidates sample_ratio default_scorer [sample_invoice]
       ([] ++ euro_transaction :: sample_transactions) 2
     = score_candidates sample_ratio default_scorer [sample_invoice]
         ([] ++ sample_transactions) 2.
Proof.
  assert (H : currency_differs sample_invoice euro_transaction = true)
    by (vm_compute; reflexivity).
  destruct (currency_mismatch_skipped sample_ratio default_scorer)
    as (Hskip & _ & Hdrop).
  split; [exact H |]. split.
  - apply Hskip. exact H.
  - apply Hdrop. intros invoice [<- | []]. exact H.
Defined.


(* ------------------------------------------------------------------ *)
(** ** Amount score: range, symmetry, scale *)

Lemma percent_diff_nonneg (a b : Q) : 0 <= percent_diff a b.
Proof.
  unfold percent_diff.
  destruct (Qlt_le_dec 0 ((a + b) / 2)) as [Havg | Havg]; [| discriminate].
  apply Qmult_le_0_compat; [| discriminate].
  apply Qmult_le_0_compat; [apply Qabs_nonneg |].
  apply Qinv_le_0_compat, Qlt_le_weak, Havg.
Qed.

Lemma Qabs_pos_of_ne (x : Q) : ~ x == 0 -> 0 < Qabs x.
Proof.
  intros Hne. apply Qabs_case; intros Hx.
  - destruct (Qlt_le_dec 0 x) as [H | H]; [exact H |].
    exfalso. apply Hne. apply Qle_antisym; assumption.
  - destruct (Qlt_le_dec x 0) as [H | H].
    + lra.
    + exfalso. apply Hne. apply Qle_antisym; assumption.
Qed.

Lemma percent_diff_pos (a b : Q) : ~ a == b -> 0 < percent_diff a b.
Proof.
  intros Hne. unfold percent_diff.
  destruct (Qlt_le_dec 0 ((a + b) / 2)) as [Havg | Havg]; [| reflexivity].
  apply Qmult_lt_0_compat; [| reflexivity].
  apply Qmult_lt_0_compat.
  - apply Qabs_pos_of_ne. intros H. apply Hne. lra.
  - apply Qinv_lt_0_compat, Havg.
Qed.

(** The in-band branch is only entered with a positive tolerance, so its
    division never has a zero divisor. *)
Lemma amount_band_positive_tolerance (self : ReconciliationScorer) (a b : Q) :
  ~ a == b ->
  percent_diff a b <= amount_tolerance_percent self ->
  0 < amount_tolerance_percent self.
Proof.
  intros Hne Hle. eapply Qlt_le_trans; [apply percent_diff_pos, Hne | exact Hle].
Qed.

Lemma ratio_in_unit (p t : Q) : 0 <= p -> 0 < t -> p <= t -> 0 <= p / t <= 1.
Proof.
  intros Hp Ht Hle. split.
  - apply Qmult_le_0_compat; [exact Hp |].
    apply Qinv_le_0_compat, Qlt_le_weak, Ht.
  - apply Qle_shift_div_r; [exact Ht |]. lra.
Qed.

Lemma amount_score_unit (self : ReconciliationScorer) (a b : Q) :
  0 <= fst (calculate_amount_score self a b) <= 1.
Proof.
  destruct (Qeq_bool a b) eqn:E.
  - apply Qeq_bool_iff in E. rewrite (amount_score_equal self a b E). cbn.
    split; discriminate.
  - assert (Hne : ~ a == b)
      by (intros H; apply Qeq_bool_iff in H; congruence).
    pose proof (percent_diff_nonneg a b) as Hp.
    destruct (Qlt_le_dec (amount_tolerance_percent self) (percent_diff a b))
      as [Hout | Hin].
    + rewrite (amount_score_beyond self a b Hne Hout).
      unfold PyNum.max.
      destruct (Qlt_le_dec 0 (1 - percent_diff a b / 100)) as [H | H];
        by_constants; split; lra.
    + rewrite (amount_score_within self a b Hne Hin).
      pose proof (amount_band_positive_tolerance self a b Hne Hin) as Ht.
      destruct (ratio_in_unit _ _ Hp Ht Hin) as [H0 H1].
      split; lra.
Qed.


(** The score of a pair only depends on whether the amounts are equal and
    on their percentage difference. *)
Lemma amount_score_same_percent (self : ReconciliationScorer) (a b c d : Q) :
  (a == b <-> c == d) ->
  percent_diff a b == percent_diff c d ->
  fst (calculate_amount_score self a b) == fst (calculate_amount_score self c d).
Proof.
  intros Heq Hp.
  destruct (Qeq_bool a b) eqn:E.
  - apply Qeq_bool_iff in E.
    rewrite (amount_score_equal self a b E).
    rewrite (amount_score_equal self c d (proj1 Heq E)). reflexivity.
  - assert (Hab : ~ a == b)
      by (intros H; apply Qeq_bool_iff in H; congruence).
    assert (Hcd : ~ c == d) by (intros H; apply Hab, Heq, H).
    destruct (Qlt_le_dec (amount_tolerance_percent self) (percent_diff a b))
      as [Hout | Hin].
    + rewrite (amount_score_beyond self a b Hab Hout).
      rewrite (amount_score_beyond self c d Hcd) by (rewrite <- Hp; exact Hout).
      rewrite !py_max_Qmax. apply Q.max_compat; [reflexivity |].
      rewrite Hp. reflexivity.
    + rewrite (amount_score_within self a b Hab Hin).
      rewrite (amount_score_within self c d Hcd) by (rewrite <- Hp; exact Hin).
      rewrite Hp. reflexivity.
Qed.

Lemma percent_diff_sym (a b : Q) : percent_diff a b == percent_diff b a.
Proof.
  unfold percent_diff.
  assert (Havg : (a + b) / 2 == (b + a) / 2) by (field).
  assert (Hdiff : Qabs (a - b) == Qabs (b - a)).
  { rewrite <- (Qabs_opp (a - b)). apply Qabs_wd. ring. }
  destruct (Qlt_le_dec 0 ((a + b) / 2)) as [H1 | H1],
           (Qlt_le_dec 0 ((b + a) / 2)) as [H2 | H2].
  - rewrite Hdiff, Havg. reflexivity.
  - exfalso. rewrite Havg in H1. apply (Qlt_not_le _ _ H1 H2).
  - exfalso. rewrite Havg in H1. apply (Qlt_not_le _ _ H2 H1).
  - reflexivity.
Qed.

(** X2: The amount score does not depend on which of the two amounts is the
    invoice's. *)
Theorem amount_score_symmetric (self : ReconciliationScorer) (a b : Q) :
  fst (calculate_amount_score self a b) == fst (calculate_amount_score self b a).
Proof.
  apply amount_score_same_percent.
  - split; intros H; symmetry; exact H.
  - apply percent_diff_sym.
Qed.

Lemma percent_diff_scale (k a b : Q) :
  0 < k -> percent_diff (k * a) (k * b) == percent_diff a b.
Proof.
  intros Hk. unfold percent_diff.
  assert (Havg : (k * a + k * b) / 2 == k * ((a + b) / 2)) by field.
  assert (Hdiff : Qabs (k * a - k * b) == k * Qabs (a - b)).
  { rewrite (Qabs_wd (k * a - k * b) (k * (a - b))) by ring.
    rewrite Qabs_Qmult. rewrite (Qabs_pos k) by lra. reflexivity. }
  destruct (Qlt_le_dec 0 ((k * a + k * b) / 2)) as [H1 | H1],
           (Qlt_le_dec 0 ((a + b) / 2)) as [H2 | H2].
  - rewrite Hdiff, Havg. set (v := (a + b) / 2) in *.
    field. split; intros Hz; rewrite Hz in *; discriminate.
  - exfalso. rewrite Havg in H1.
    assert (k * ((a + b) / 2) <= 0).
    { rewrite <- (Qmult_0_r k). apply Qmult_le_l; assumption. }
    lra.
  - exfalso. rewrite Havg in H1.
    assert (0 < k * ((a + b) / 2)) by (apply Qmult_lt_0_compat; assumption).
    lra.
  - reflexivity.
Qed.

(** X3: Multiplying both amounts by the same positive factor (the same sums
    in another unit) leaves the amount score unchanged. *)
Theorem amount_score_scale_invariant (self : ReconciliationScorer)
    (k a b : Q) :
  0 < k ->
  fst (calculate_amount_score self (k * a) (k * b))
  == fst (calculate_amount_score self a b).
Proof.
  intros Hk. apply amount_score_same_percent.
  - split; intros H.
    + apply (Qmult_inj_l a b k); [lra | exact H].
    + rewrite H. reflexivity.
  - apply percent_diff_scale, Hk.
Qed.

(** X4: A pair whose percentage difference is exactly the tolerance scores
    0.5. *)
Theorem amount_score_at_tolerance (self : ReconciliationScorer) (a b : Q) :
  ~ a == b ->
  percent_diff a b == amount_tolerance_percent self ->
  fst (calculate_amount_score self a b) == 1 # 2.
Proof.
  intros Hne Hp.
  assert (Hin : percent_diff a b <= amount_tolerance_percent self)
    by (rewrite Hp; apply Qle_refl).
  rewrite (amount_score_within self a b Hne Hin).
  pose proof (amount_band_positive_tolerance self a b Hne Hin) as Ht.
  rewrite Hp. field. lra.
Qed.

(** X5: Two different amounts whose average is zero or negative are given a
    difference of 100 percent; with a tolerance below 100 they score 0. *)
Theorem amount_score_degenerate_average (self : ReconciliationScorer)
    (a b : Q) :
  ~ a == b ->
  (a + b) / 2 <= 0 ->
  amount_tolerance_percent self < 100 ->
  percent_diff a b = 100
  /\ fst (calculate_amount_score self a b) == 0
  /\ snd (calculate_amount_score self a b) = "Amount differs by 100.0%".
Proof.
  intros Hne Havg Htol.
  assert (Hp : percent_diff a b = 100).
  { unfold percent_diff.
    destruct (Qlt_le_dec 0 ((a + b) / 2)) as [H | H]; [| reflexivity].
    exfalso. apply (Qlt_not_le _ _ H Havg). }
  split; [exact Hp |].
  unfold calculate_amount_score.
  destruct (Qeq_bool a b) eqn:E; [apply Qeq_bool_iff in E; contradiction |].
  rewrite Hp.
  destruct (Qle_bool 100 (amount_tolerance_percent self)) eqn:L.
  - apply Qle_bool_iff in L. exfalso. apply (Qlt_not_le _ _ Htol L).
  - split; vm_compute; reflexivity.
Qed.

(* ------------------------------------------------------------------ *)
(** ** Date score: range and the day difference *)

(** [days_diff] read on the wall clock of both sides. *)
Lemma days_diff_wall (a b : PyDate.datetime) :
  days_diff a b
  = Z.abs ((PyDate.wall_us a - PyDate.wall_us b) / PyDate.us_per_day).
Proof.
  destruct a as [ya ma da ha mia sa ua [oa |]],
           b as [yb mb db hb mib sb ub [ob |]]; reflexivity.
Qed.

Lemma days_diff_nonneg (a b : PyDate.datetime) : (0 <= days_diff a b)%Z.
Proof. rewrite days_diff_wall. apply Z.abs_nonneg. Qed.

(** The score computed from a non-negative day difference lies in
    [0, 1], whatever the window is (zero and negative windows included),
    and is at least 0.5 inside the window. *)
Lemma date_score_of_days_range (self : ReconciliationScorer) (days : Z) :
  (0 <= days)%Z ->
  0 <= fst (date_score_of_days self days) <= 1
  /\ ((days <= date_proximity_days self)%Z ->
      1 # 2 <= fst (date_score_of_days self days)).
Proof.
  intros Hdays. unfold date_score_of_days.
  destruct (days =? 0)%Z eqn:E0.
  - cbn. repeat split; intros; discriminate.
  - apply Z.eqb_neq in E0.
    assert (Hd : 0 <= inject_Z days)
      by (change (inject_Z 0 <= inject_Z days); rewrite <- Zle_Qle;
          exact Hdays).
    destruct (days <=? date_proximity_days self)%Z eqn:E1; cbn [fst].
    + apply Z.leb_le in E1.
      assert (Hw : 0 < inject_Z (date_proximity_days self))
        by (change (inject_Z 0 < inject_Z (date_proximity_days self));
            rewrite <- Zlt_Qlt; lia).
      assert (Hle : inject_Z days <= inject_Z (date_proximity_days self))
        by (rewrite <- Zle_Qle; exact E1).
      destruct (ratio_in_unit _ _ Hd Hw Hle) as [H0 H1].
      split; [split; lra | intros _; lra].
    + apply Z.leb_gt in E1. unfold PyNum.max.
      destruct (Qlt_le_dec 0 (1 - inject_Z days / 30)) as [H | H];
        by_constants; (split; [split; lra | intros H'; lia]).
Qed.

Lemma date_score_unit (self : ReconciliationScorer)
    (invoice_date : option PyDate.datetime)
    (transaction_date : PyDate.datetime) :
  0 <= fst (calculate_date_score self invoice_date transaction_date) <= 1.
Proof.
  destruct invoice_date as [d |]; cbn [calculate_date_score].
  - apply date_score_of_days_range, days_diff_nonneg.
  - cbn. split; discriminate.
Qed.

(** X8: The date score lies in [0, 1] for every pair of timestamps, a missing
    invoice date included, and every configuration (a zero or negative
    window included); inside the window it is 0.5 or more. *)
Theorem date_score_range (self : ReconciliationScorer)
    (invoice_date : option PyDate.datetime)
    (transaction_date : PyDate.datetime) :
  0 <= fst (calculate_date_score self invoice_date transaction_date) <= 1
  /\ forall d, invoice_date = Some d ->
       (days_diff d transaction_date <= date_proximity_days self)%Z ->
       1 # 2 <= fst (calculate_date_score self invoice_date transaction_date).
Proof.
  split; [apply date_score_unit |].
  intros d -> Hin. cbn [calculate_date_score].
  apply date_score_of_days_range; [apply days_diff_nonneg | exact Hin].
Qed.

(** X10: Attaching, changing or removing the time zone of either timestamp
    changes neither the score nor the explanation: only the wall-clock
    fields are read. *)
Theorem date_score_ignores_tzinfo (self : ReconciliationScorer)
    (invoice_date transaction_date : PyDate.datetime)
    (invoice_tz transaction_tz : option Z) :
  calculate_date_score self
    (Some (with_tzinfo invoice_date invoice_tz))
    (with_tzinfo transaction_date transaction_tz)
  = calculate_date_score self (Some invoice_date) transaction_date.
Proof.
  cbn [calculate_date_score]. f_equal. rewrite !days_diff_wall. reflexivity.
Qed.

(** X11: The same-day branch is taken exactly when the invoice's wall-clock
    time is at or after the transaction's by less than 24 hours; and
    exchanging the two timestamps changes the day difference by at most
    one. *)
Theorem days_diff_zero_iff (a b : PyDate.datetime) :
  (days_diff a b = 0
   <-> 0 <= PyDate.wall_us a - PyDate.wall_us b < PyDate.us_per_day)%Z
  /\ (Z.abs (days_diff a b - days_diff b a) <= 1)%Z.
Proof.
  rewrite !days_diff_wall.
  set (x := (PyDate.wall_us a - PyDate.wall_us b)%Z).
  replace (PyDate.wall_us b - PyDate.wall_us a)%Z with (- x)%Z
    by (subst x; ring).
  change PyDate.us_per_day with 86400000000%Z.
  split.
  - split; intros H.
    + assert (Hq : (x / 86400000000 = 0)%Z) by lia.
      apply Z.div_small_iff in Hq; lia.
    + rewrite Z.div_small by lia. reflexivity.
  - pose proof (Z.div_mod x 86400000000 ltac:(lia)) as H1.
    pose proof (Z.mod_pos_bound x 86400000000 ltac:(lia)) as H2.
    pose proof (Z.div_mod (- x) 86400000000 ltac:(lia)) as H3.
    pose proof (Z.mod_pos_bound (- x) 86400000000 ltac:(lia)) as H4.
    lia.
Qed.

(* ------------------------------------------------------------------ *)
(** ** Text score: overrides, bounds, case *)

Lemma py_max_ge_l (a b : Q) : a <= PyNum.max a b.
Proof.
  unfold PyNum.max. destruct (Qlt_le_dec a b) as [H | H];
    [apply Qlt_le_weak, H | apply Qle_refl].
Qed.


Lemma py_max_le (a b m : Q) : a <= m -> b <= m -> PyNum.max a b <= m.
Proof.
  intros Ha Hb. unfold PyNum.max. destruct (Qlt_le_dec a b); assumption.
Qed.

(** The loop over [invoice_texts] never lowers [max_score], ends at or
    above the ratio of every text, and stays below any bound that holds
    for the start value and all ratios. *)
Lemma text_loop_grows (partial_ratio : string -> string -> Z)
    (transaction_text : string) (texts : list string) :
  forall st,
    fst st
    <= fst (fold_left (text_step partial_ratio transaction_text) texts st).
Proof.
  induction texts as [| text rest IH]; intros st; cbn [fold_left].
  - apply Qle_refl.
  - eapply Qle_trans; [| apply IH]. unfold text_step.
    destruct (Qlt_le_dec (fst st) _) as [H | H]; cbn [fst];
      [apply Qlt_le_weak, H | apply Qle_refl].
Qed.

Lemma text_loop_dominates (partial_ratio : string -> string -> Z)
    (transaction_text : string) (texts : list string) :
  forall st text,
    In text texts ->
    inject_Z (partial_ratio text transaction_text) / 100
    <= fst (fold_left (text_step partial_ratio transaction_text) texts st).
Proof.
  induction texts as [| t rest IH]; intros st text Hin; [destruct Hin |].
  cbn [fold_left]. destruct Hin as [-> | Hin]; [| apply IH, Hin].
  eapply Qle_trans; [| apply text_loop_grows]. unfold text_step.
  destruct (Qlt_le_dec (fst st) _) as [H | H]; cbn [fst];
    [apply Qle_refl | exact H].
Qed.

Lemma text_loop_bounded (partial_ratio : string -> string -> Z)
    (transaction_text : string) (texts : list string) (bound : Q) :
  (forall text, In text texts ->
     inject_Z (partial_ratio text transaction_text) / 100 <= bound) ->
  forall st,
    fst st <= bound ->
    fst (fold_left (text_step partial_ratio transaction_text) texts st)
    <= bound.
Proof.
  induction texts as [| t rest IH]; intros Hall st Hst; cbn [fold_left].
  - exact Hst.
  - apply IH; [intros text Hin; apply Hall; right; exact Hin |].
    unfold text_step. destruct (Qlt_le_dec (fst st) _) as [H | H]; cbn [fst].
    + apply Hall. left. reflexivity.
    + exact Hst.
Qed.

(** The score returned when there is enough text: the loop result, then
    the two overrides. *)
Lemma text_score_value (partial_ratio : string -> string -> Z)
    (idesc tdesc inum vendor : option string) :
  truthy tdesc = true ->
  invoice_texts idesc inum vendor <> [] ->
  let looped :=
    fst (fold_left (text_step partial_ratio (lowered tdesc))
                   (invoice_texts idesc inum vendor) (0, EmptyString)) in
  let numbered :=
    if truthy inum && PyStr.contains (lowered inum) (lowered tdesc)
    then PyNum.max looped (9 # 10) else looped in
  fst (calculate_text_score partial_ratio idesc tdesc inum vendor)
  = if truthy vendor && PyStr.contains (lowered vendor) (lowered tdesc)
    then PyNum.max numbered (85 # 100) else numbered.
Proof.
  intros Ht Htexts looped numbered. subst looped numbered.
  unfold calculate_text_score. rewrite Ht. cbn [negb orb].
  destruct (invoice_texts idesc inum vendor) as [| text rest] eqn:E;
    [contradiction |].
  destruct (fold_left _ (text :: rest) _) as [s0 m0].
  destruct (truthy inum && PyStr.contains (lowered inum) (lowered tdesc));
    destruct (truthy vendor && PyStr.contains (lowered vendor) (lowered tdesc));
    reflexivity.
Qed.








Lemma text_score_bounds_all (partial_ratio : string -> string -> Z)
    (idesc tdesc inum vendor : option string) :
  0 <= fst (calculate_text_score partial_ratio idesc tdesc inum vendor)
  /\ (truthy tdesc = true ->
      forall text, In text (invoice_texts idesc inum vendor) ->
        inject_Z (partial_ratio text (lowered tdesc)) / 100
        <= fst (calculate_text_score partial_ratio idesc tdesc inum vendor))
  /\ (percentage partial_ratio ->
      fst (calculate_text_score partial_ratio idesc tdesc inum vendor) <= 1).
Proof.
  destruct (truthy tdesc) eqn:Ht.
  - destruct (invoice_texts idesc inum vendor) as [| text0 rest] eqn:E.
    + unfold calculate_text_score. rewrite Ht, E. cbn.
      repeat split; try discriminate. intros _ text [].
    + assert (Hne : invoice_texts idesc inum vendor <> [])
        by (rewrite E; discriminate).
      rewrite (text_score_value partial_ratio idesc tdesc inum vendor Ht Hne).
      rewrite E.
      set (looped := fst (fold_left _ (text0 :: rest) _)).
      assert (Hgrow : 0 <= looped)
        by (apply (text_loop_grows partial_ratio (lowered tdesc)
                     (text0 :: rest) (0, EmptyString))).
      set (numbered := if truthy inum && _ then _ else looped).
      assert (Hnum : looped <= numbered)
        by (subst numbered; destruct (truthy inum && _);
            [apply py_max_ge_l | apply Qle_refl]).
      set (final := if truthy vendor && _ then _ else numbered).
      assert (Hfin : numbered <= final)
        by (subst final; destruct (truthy vendor && _);
            [apply py_max_ge_l | apply Qle_refl]).
      split; [lra |]. split.
      * intros _ text Hin.
        eapply Qle_trans; [| eapply Qle_trans; [exact Hnum | exact Hfin]].
        apply (text_loop_dominates partial_ratio (lowered tdesc)
                 (text0 :: rest) (0, EmptyString) text Hin).
      * intros Hpct.
        assert (Hloop : looped <= 1).
        { apply text_loop_bounded; [| discriminate].
          intros text _. apply Qle_shift_div_r; [reflexivity |].
          destruct (Hpct text (lowered tdesc)) as [_ Hhi].
          change (inject_Z (partial_ratio text (lowered tdesc))
                  <= inject_Z 100).
          rewrite <- Zle_Qle. exact Hhi. }
        assert (Hnum1 : numbered <= 1)
          by (subst numbered; destruct (truthy inum && _);
              [apply py_max_le; [exact Hloop | discriminate] | exact Hloop]).
        subst final. destruct (truthy vendor && _);
          [apply py_max_le; [exact Hnum1 | discriminate] | exact Hnum1].
  - unfold calculate_text_score. rewrite Ht. cbn.
    repeat split; try discriminate.
Qed.

(** X14: The text score is never negative; it is at least the similarity
    ratio of every invoice-side text when there is enough text; and it is
    at most 1 when the similarity function returns percentages. *)
Theorem text_score_bounds (partial_ratio : string -> string -> Z)
    (idesc tdesc inum vendor : option string) :
  0 <= fst (calculate_text_score partial_ratio idesc tdesc inum vendor)
  /\ (truthy tdesc = true ->
      forall text, In text (invoice_texts idesc inum vendor) ->
        inject_Z (partial_ratio text (lowered tdesc)) / 100
        <= fst (calculate_text_score partial_ratio idesc tdesc inum vendor))
  /\ (percentage partial_ratio ->
      fst (calculate_text_score partial_ratio idesc tdesc inum vendor) <= 1).
Proof. apply text_score_bounds_all. Qed.

Lemma lower_ascii_idempotent (c : ascii) :
  PyStr.lower_ascii (PyStr.lower_ascii c) = PyStr.lower_ascii c.
Proof.
  destruct c as [[] [] [] [] [] [] [] []]; reflexivity.
Qed.

Lemma lower_idempotent (s : string) :
  PyStr.lower (PyStr.lower s) = PyStr.lower s.
Proof.
  induction s as [| c rest IH]; cbn; [reflexivity |].
  rewrite lower_ascii_idempotent, IH. reflexivity.
Qed.

Lemma truthy_lower (s : option string) :
  truthy (option_map PyStr.lower s) = truthy s.
Proof. destruct s as [[| c rest] |]; reflexivity. Qed.

Lemma lowered_lower (s : option string) :
  lowered (option_map PyStr.lower s) = lowered s.
Proof. destruct s as [s |]; cbn; [apply lower_idempotent | reflexivity]. Qed.

Lemma invoice_texts_lower (idesc inum vendor : option string) :
  invoice_texts (option_map PyStr.lower idesc) (option_map PyStr.lower inum)
                (option_map PyStr.lower vendor)
  = invoice_texts idesc inum vendor.
Proof.
  unfold invoice_texts. rewrite !truthy_lower, !lowered_lower. reflexivity.
Qed.

(** X15: The text score is case-insensitive: putting any of the four texts in
    lower case leaves the score unchanged. *)
Theorem text_score_case_insensitive (partial_ratio : string -> string -> Z)
    (idesc tdesc inum vendor : option string) :
  fst (calculate_text_score partial_ratio
         (option_map PyStr.lower idesc) (option_map PyStr.lower tdesc)
         (option_map PyStr.lower inum) (option_map PyStr.lower vendor))
  = fst (calculate_text_score partial_ratio idesc tdesc inum vendor).
Proof.
  destruct (truthy tdesc) eqn:Ht.
  - destruct (invoice_texts idesc inum vendor) as [| text rest] eqn:E.
    + unfold calculate_text_score.
      rewrite invoice_texts_lower, truthy_lower, Ht, E. reflexivity.
    + assert (Hne : invoice_texts idesc inum vendor <> [])
        by (rewrite E; discriminate).
      rewrite (text_score_value partial_ratio idesc tdesc inum vendor Ht Hne).
      rewrite text_score_value.
      * rewrite invoice_texts_lower, !truthy_lower, !lowered_lower.
        reflexivity.
      * rewrite truthy_lower. exact Ht.
      * rewrite invoice_texts_lower. exact Hne.
  - unfold calculate_text_score. rewrite truthy_lower, Ht. reflexivity.
Qed.

(* ------------------------------------------------------------------ *)
(** ** Single-pair scoring: ranges *)

Lemma py_min_le_l (a b : Q) : PyNum.min a b <= a.
Proof.
  unfold PyNum.min. destruct (Qlt_le_dec b a) as [H | H];
    [apply Qlt_le_weak, H | apply Qle_refl].
Qed.

Lemma py_min_ge (a b m : Q) : m <= a -> m <= b -> m <= PyNum.min a b.
Proof.
  intros Ha Hb. unfold PyNum.min. destruct (Qlt_le_dec b a); assumption.
Qed.

(** X16: The overall score never exceeds 100; with non-negative weights it is
    never negative; the amount and date sub-scores stored on the candidate
    lie in [0, 100], and so does the text sub-score when the similarity
    function returns percentages. *)
Theorem score_match_ranges (partial_ratio : string -> string -> Z)
    (self : ReconciliationScorer) (iid : string) (iamt : Q)
    (idate : option PyDate.datetime) (idesc inum vendor : option string)
    (tid : string) (tamt : Q) (tdate : PyDate.datetime)
    (tdesc : option string) :
  let c := score_match partial_ratio self iid iamt idate idesc inum vendor
                       tid tamt tdate tdesc in
  score c <= 100
  /\ (nonnegative_weights self -> 0 <= score c)
  /\ 0 <= amount_score c <= 100
  /\ 0 <= date_score c <= 100
  /\ 0 <= text_score c
  /\ (percentage partial_ratio -> text_score c <= 100).
Proof.
  intros c. subst c. rewrite score_match_fields.
  cbn [score amount_score date_score text_score].
  destruct (amount_score_unit self iamt tamt) as [Ha0 Ha1].
  destruct (date_score_unit self idate tdate) as [Hd0 Hd1].
  destruct (text_score_bounds_all partial_ratio idesc tdesc inum vendor)
    as (Ht0 & _ & Ht1).
  set (a := fst (calculate_amount_score self iamt tamt)) in *.
  set (d := fst (calculate_date_score self idate tdate)) in *.
  set (t := fst (calculate_text_score partial_ratio idesc tdesc inum vendor))
    in *.
  split; [apply py_min_le_l |]. split.
  - intros (Hwa & Hwd & Hwt). apply py_min_ge; [discriminate |].
    assert (0 <= a * amount_exact_weight self)
      by (apply Qmult_le_0_compat; assumption).
    assert (0 <= d * date_proximity_weight self)
      by (apply Qmult_le_0_compat; assumption).
    assert (0 <= t * text_similarity_weight self)
      by (apply Qmult_le_0_compat; assumption).
    lra.
  - repeat split; try lra. intros Hpct. specialize (Ht1 Hpct). lra.
Qed.

(* ------------------------------------------------------------------ *)
(** ** Ranking *)

Lemma insert_desc_descending (c : MatchCandidate) (l : list MatchCandidate) :
  descending l -> descending (insert_desc c l).
Proof.
  unfold descending. induction l as [| d rest IH]; intros Hl; cbn.
  - constructor; constructor.
  - apply StronglySorted_inv in Hl. destruct Hl as [Hrest Hd].
    destruct (Qlt_le_dec (score c) (score d)) as [Hlt | Hle].
    + constructor; [apply IH, Hrest |].
      apply List.Forall_forall. intros x Hx. apply insert_desc_In in Hx.
      destruct Hx as [-> | Hx]; [apply Qlt_le_weak, Hlt |].
      rewrite List.Forall_forall in Hd. apply Hd, Hx.
    + constructor; [constructor; assumption |].
      constructor; [exact Hle |].
      apply List.Forall_forall. intros x Hx.
      rewrite List.Forall_forall in Hd.
      eapply Qle_trans; [apply Hd, Hx | exact Hle].
Qed.

Lemma sort_desc_descending (l : list MatchCandidate) : descending (sort_desc l).
Proof.
  induction l as [| c rest IH]; cbn.
  - constructor.
  - apply insert_desc_descending, IH.
Qed.

Lemma insert_desc_permutation (c : MatchCandidate) (l : list MatchCandidate) :
  Permutation (insert_desc c l) (c :: l).
Proof.
  induction l as [| d rest IH]; cbn.
  - apply Permutation_refl.
  - destruct (Qlt_le_dec (score c) (score d)).
    + eapply perm_trans; [apply perm_skip, IH | apply perm_swap].
    + apply Permutation_refl.
Qed.

Lemma sort_desc_permutation (l : list MatchCandidate) :
  Permutation (sort_desc l) l.
Proof.
  induction l as [| c rest IH]; cbn.
  - apply perm_nil.
  - eapply perm_trans; [apply insert_desc_permutation |].
    apply perm_skip, IH.
Qed.

Lemma insert_desc_with_score (q : Q) (c : MatchCandidate)
    (l : list MatchCandidate) :
  with_score q (insert_desc c l)
  = if Qeq_bool (score c) q then c :: with_score q l else with_score q l.
Proof.
  unfold with_score. induction l as [| d rest IH]; cbn [insert_desc].
  - reflexivity.
  - destruct (Qlt_le_dec (score c) (score d)) as [Hlt | Hle];
      [| reflexivity].
    cbn [List.filter]. rewrite IH.
    destruct (Qeq_bool (score c) q) eqn:Ec; [| reflexivity].
    destruct (Qeq_bool (score d) q) eqn:Ed; [| reflexivity].
    apply Qeq_bool_iff in Ec, Ed. exfalso.
    rewrite Ec, Ed in Hlt. apply (Qlt_irrefl _ Hlt).
Qed.

(** The sort is stable: among candidates of equal score the order of the
    input is kept. *)
Lemma sort_desc_stable (q : Q) (l : list MatchCandidate) :
  with_score q (sort_desc l) = with_score q l.
Proof.
  induction l as [| c rest IH]; [reflexivity |].
  cbn [sort_desc foldr]. fold (sort_desc rest).
  rewrite insert_desc_with_score, IH. reflexivity.
Qed.

(** X17: The batch result is ranked best first; it is a rearrangement of what
    the invoices retained; and candidates with equal scores come in the
    order of the loops (invoice order, then the order left by the
    per-invoice sort). *)
Theorem score_candidates_ranked (partial_ratio : string -> string -> Z)
    (self : ReconciliationScorer)
    (invoices transactions : list (gmap string pyval)) (top_n : Z)
    (out : list MatchCandidate) :
  score_candidates partial_ratio self invoices transactions top_n = Ok out ->
  descending out
  /\ exists all,
       all_candidates partial_ratio self invoices transactions top_n = Ok all
       /\ Permutation out all
       /\ forall q, with_score q out = with_score q all.
Proof.
  intros Hrun. apply score_candidates_inv in Hrun.
  destruct Hrun as (all & Hall & ->).
  split; [apply sort_desc_descending |].
  exists all. split; [exact Hall |].
  split; [apply sort_desc_permutation | intros q; apply sort_desc_stable].
Qed.

Lemma skipn_subset {A : Type} (k : nat) (l : list A) (x : A) :
  In x (skipn k l) -> In x l.
Proof.
  revert l. induction k as [| k IH]; intros [| y l]; cbn; try tauto.
  intros Hin. right. apply IH, Hin.
Qed.

Lemma descending_firstn_skipn (l : list MatchCandidate) (k : nat) :
  descending l ->
  forall c d, In c (firstn k l) -> In d (skipn k l) -> score d <= score c.
Proof.
  unfold descending. revert k.
  induction l as [| x rest IH]; intros k Hl c d Hc Hd.
  - destruct k; destruct Hc.
  - destruct k as [| k]; [destruct Hc |].
    apply StronglySorted_inv in Hl. destruct Hl as [Hrest Hx].
    cbn in Hc, Hd. destruct Hc as [<- | Hc].
    + rewrite List.Forall_forall in Hx. apply Hx.
      apply (skipn_subset k rest d Hd).
    + apply (IH k Hrest c d Hc Hd).
Qed.

(** X18: Truncation keeps the best: what an invoice retains and what it drops
    make up its candidates, the retained ones come best first as a tie-
    preserving prefix of the sorted list, and no dropped candidate scores
    higher than a retained one.  This holds for every [top_n]. *)
Theorem retained_keeps_best (partial_ratio : string -> string -> Z)
    (self : ReconciliationScorer) (top_n : Z) (invoice : gmap string pyval)
    (transactions : list (gmap string pyval)) (kept : list MatchCandidate) :
  retained partial_ratio self top_n invoice transactions = Ok kept ->
  exists cands dropped,
    invoice_candidates partial_ratio self invoice transactions = Ok cands
    /\ (kept ++ dropped)%list = sort_desc cands
    /\ Permutation (kept ++ dropped)%list cands
    /\ descending kept
    /\ forall c d, In c kept -> In d dropped -> score d <= score c.
Proof.
  intros Hrun. apply retained_inv in Hrun.
  destruct Hrun as (cands & Hcands & ->).
  unfold slice_to.
  set (k := if (top_n <? 0)%Z
            then Z.to_nat (Z.of_nat (length (sort_desc cands)) + top_n)
            else Z.to_nat top_n).
  assert (Hk : (if (top_n <? 0)%Z
                then firstn (Z.to_nat (Z.of_nat (length (sort_desc cands))
                                       + top_n)) (sort_desc cands)
                else firstn (Z.to_nat top_n) (sort_desc cands))
               = firstn k (sort_desc cands))
    by (subst k; destruct (top_n <? 0)%Z; reflexivity).
  rewrite Hk. exists cands, (skipn k (sort_desc cands)).
  pose proof (sort_desc_descending cands) as Hsorted.
  split; [exact Hcands |]. split; [apply firstn_skipn |]. split.
  - rewrite firstn_skipn. apply sort_desc_permutation.
  - split.
    + unfold descending in *.
      rewrite <- (firstn_skipn k (sort_desc cands)) in Hsorted.
      clear Hk. revert Hsorted.
      generalize (firstn k (sort_desc cands)) (skipn k (sort_desc cands)).
      intros l1 l2. induction l1 as [| x l1 IH]; intros H; [constructor |].
      cbn in H. apply StronglySorted_inv in H. destruct H as [H1 H2].
      constructor; [apply IH, H1 |].
      rewrite List.Forall_forall in *. intros y Hy. apply H2.
      apply in_or_app. left. exact Hy.
    + apply descending_firstn_skipn, Hsorted.
Qed.

(* ------------------------------------------------------------------ *)
(** ** Batch scoring: success, errors, sizes *)

Lemma invoice_candidates_ok (partial_ratio : string -> string -> Z)
    (self : ReconciliationScorer) (invoice : gmap string pyval)
    (transactions : list (gmap string pyval)) (cands : list MatchCandidate) :
  invoice_candidates partial_ratio self invoice transactions = Ok cands ->
  forallb (arguments_ok invoice) (admissible invoice transactions) = true
  /\ length cands = length (admissible invoice transactions).
Proof.
  unfold admissible. revert cands.
  induction transactions as [| t rest IH]; intros cands Hrun.
  - cbn in Hrun. injection Hrun as <-. split; reflexivity.
  - cbn [invoice_candidates] in Hrun. cbn [List.filter].
    destruct (currency_differs invoice t); cbn [negb].
    + apply IH, Hrun.
    + unfold score_pair in Hrun. unfold arguments_ok at 1. cbn [forallb].
      destruct (pair_arguments invoice t) as [args |]; cbn in Hrun;
        [| discriminate].
      destruct (invoice_candidates partial_ratio self invoice rest)
        as [others |]; cbn in Hrun; [| discriminate].
      injection Hrun as <-. destruct (IH others eq_refl) as [Hall Hlen].
      unfold arguments_ok in Hall |- *. cbn. rewrite Hlen.
      split; [exact Hall | reflexivity].
Qed.

Lemma slice_to_shorter {A : Type} (n : Z) (l : list A) :
  (length (slice_to n l) <= length l)%nat.
Proof.
  unfold slice_to. destruct (n <? 0)%Z; rewrite length_firstn; lia.
Qed.

Lemma admissible_pairs_cons (invoice : gmap string pyval)
    (invoices transactions : list (gmap string pyval)) :
  length (admissible_pairs (invoice :: invoices) transactions)
  = (length (admissible invoice transactions)
     + length (admissible_pairs invoices transactions))%nat.
Proof.
  unfold admissible_pairs. cbn [flat_map].
  rewrite length_app, length_map. reflexivity.
Qed.

Lemma admissible_shorter (invoice : gmap string pyval)
    (transactions : list (gmap string pyval)) :
  (length (admissible invoice transactions) <= length transactions)%nat.
Proof.
  unfold admissible. induction transactions as [| t rest IH]; cbn; [lia |].
  destruct (negb (currency_differs invoice t)); cbn; lia.
Qed.

(** What the outer loop collects, in sizes. *)
Lemma all_candidates_sizes (partial_ratio : string -> string -> Z)
    (self : ReconciliationScorer)
    (invoices transactions : list (gmap string pyval)) (top_n : Z) :
  forall all,
    all_candidates partial_ratio self invoices transactions top_n = Ok all ->
    (length all <= length (admissible_pairs invoices transactions))%nat
    /\ (length (admissible_pairs invoices transactions)
        <= length invoices * length transactions)%nat
    /\ ((0 <= top_n)%Z ->
        (Z.of_nat (length all) <= top_n * Z.of_nat (length invoices))%Z)
    /\ ((Z.of_nat (length transactions) <= top_n)%Z ->
        length all = length (admissible_pairs invoices transactions)).
Proof.
  induction invoices as [| inv rest IH]; intros all Hrun.
  - cbn in Hrun. injection Hrun as <-. cbn. repeat split; lia.
  - cbn [all_candidates] in Hrun.
    destruct (retained partial_ratio self top_n inv transactions)
      as [kept |] eqn:Hk; cbn in Hrun; [| discriminate].
    destruct (all_candidates partial_ratio self rest transactions top_n)
      as [others |]; cbn in Hrun; [| discriminate].
    injection Hrun as <-.
    destruct (IH others eq_refl) as (H1 & H2 & H3 & H4).
    pose proof (fun Hn => retained_at_most_top_n _ _ _ _ _ _ Hn Hk) as Hbound.
    apply retained_inv in Hk. destruct Hk as (cands & Hcands & ->).
    destruct (invoice_candidates_ok _ _ _ _ _ Hcands) as [_ Hlen].
    pose proof (slice_to_shorter top_n (sort_desc cands)) as Hshort.
    rewrite sort_desc_length in Hshort.
    pose proof (admissible_shorter inv transactions) as Hadm.
    rewrite length_app, admissible_pairs_cons. cbn [length].
    split; [lia |]. split; [lia |]. split.
    + intros Hn. specialize (Hbound Hn). specialize (H3 Hn). lia.
    + intros Hn. specialize (H4 Hn).
      rewrite slice_to_all by (rewrite sort_desc_length; lia).
      rewrite sort_desc_length. lia.
Qed.





(** X21: Without invoices or without transactions the result is the empty
    list; with no transactions the invoices are not even looked at, so
    malformed invoices raise nothing. *)
Theorem score_candidates_empty (partial_ratio : string -> string -> Z)
    (self : ReconciliationScorer)
    (invoices transactions : list (gmap string pyval)) (top_n : Z) :
  score_candidates partial_ratio self [] transactions top_n = Ok []
  /\ score_candidates partial_ratio self invoices [] top_n = Ok [].
Proof.
  split; [reflexivity |].
  assert (Hall : all_candidates partial_ratio self invoices [] top_n = Ok []).
  { induction invoices as [| inv rest IH]; [reflexivity |].
    cbn [all_candidates]. rewrite IH.
    unfold retained, slice_to. cbn.
    destruct (top_n <? 0)%Z; cbn; rewrite firstn_nil; reflexivity. }
  unfold score_candidates. rewrite Hall. reflexivity.
Qed.

(** X22: With a negative [top_n] an invoice does not retain nothing: the slice
    keeps the sorted candidates except the last [- top_n] of them. *)
Theorem negative_top_n_drops_from_end (partial_ratio : string -> string -> Z)
    (self : ReconciliationScorer) (top_n : Z) (invoice : gmap string pyval)
    (transactions : list (gmap string pyval)) (kept : list MatchCandidate) :
  (top_n < 0)%Z ->
  retained partial_ratio self top_n invoice transactions = Ok kept ->
  exists cands,
    invoice_candidates partial_ratio self invoice transactions = Ok cands
    /\ kept = firstn (Z.to_nat (Z.of_nat (length cands) + top_n))
                     (sort_desc cands)
    /\ length kept = Z.to_nat (Z.of_nat (length cands) + top_n).
Proof.
  intros Hn Hrun. apply retained_inv in Hrun.
  destruct Hrun as (cands & Hcands & ->). exists cands.
  split; [exact Hcands |]. split.
  - unfold slice_to. apply Z.ltb_lt in Hn. rewrite Hn.
    rewrite sort_desc_length. reflexivity.
  - rewrite slice_to_negative by exact Hn.
    rewrite sort_desc_length. reflexivity.
Qed.

(* ------------------------------------------------------------------ *)
(** ** The GraphQL mutation *)

Lemma as_optional_str_of (s : option string) :
  as_optional_str (of_optional_str s) = Ok s.
Proof. destruct s; reflexivity. Qed.

Lemma as_optional_datetime_of (d : option PyDate.datetime) :
  as_optional_datetime (of_optional_datetime d) = Ok d.
Proof. destruct d; reflexivity. Qed.

(** For the dicts the mutation builds, the currency test compares the two
    currency strings. *)
Lemma currency_differs_of_inputs (inv : InvoiceInput.t)
    (txn : TransactionInput.t) :
  currency_differs (invoice_dict inv) (transaction_dict txn)
  = negb (String.eqb (InvoiceInput.currency inv)
                     (TransactionInput.currency txn)).
Proof. reflexivity. Qed.

(** Every field the mutation puts into the two dicts is read back
    unchanged by the scorer; the two amounts are the only arguments whose
    evaluation can fail. *)
Lemma pair_arguments_of_inputs (inv : InvoiceInput.t)
    (txn : TransactionInput.t) :
  pair_arguments (invoice_dict inv) (transaction_dict txn)
  = (iamt ← PyDecimal.of_str (InvoiceInput.amount inv);
     tamt ← PyDecimal.of_str (TransactionInput.amount txn);
     Ok (mk_call (InvoiceInput.id inv) iamt
                 (InvoiceInput.invoice_date inv)
                 (InvoiceInput.description inv)
                 (InvoiceInput.invoice_number inv)
                 (InvoiceInput.vendor_name inv)
                 (TransactionInput.id txn) tamt
                 (TransactionInput.posted_at txn)
                 (TransactionInput.description txn))).
Proof.
  unfold pair_arguments.
  change (dict_item (invoice_dict inv) "id")
    with (Ok (PStr (InvoiceInput.id inv))).
  change (dict_item (invoice_dict inv) "amount")
    with (Ok (PStr (InvoiceInput.amount inv))).
  change (dict_item (transaction_dict txn) "id")
    with (Ok (PStr (TransactionInput.id txn))).
  change (dict_item (transaction_dict txn) "amount")
    with (Ok (PStr (TransactionInput.amount txn))).
  change (dict_item (transaction_dict txn) "posted_at")
    with (Ok (PDatetime (TransactionInput.posted_at txn))).
  change (dict_get (invoice_dict inv) "invoice_date")
    with (of_optional_datetime (InvoiceInput.invoice_date inv)).
  change (dict_get (invoice_dict inv) "description")
    with (of_optional_str (InvoiceInput.description inv)).
  change (dict_get (invoice_dict inv) "invoice_number")
    with (of_optional_str (InvoiceInput.invoice_number inv)).
  change (dict_get (invoice_dict inv) "vendor_name")
    with (of_optional_str (InvoiceInput.vendor_name inv)).
  change (dict_get (transaction_dict txn) "description")
    with (of_optional_str (TransactionInput.description txn)).
  cbn [mbind result_bind py_str].
  destruct (PyDecimal.of_str (InvoiceInput.amount inv)) as [iamt |];
    [| reflexivity].
  destruct (PyDecimal.of_str (TransactionInput.amount txn)) as [tamt |];
    [| reflexivity].
  cbn [as_datetime].
  rewrite as_optional_datetime_of, !as_optional_str_of. reflexivity.
Qed.




(** X26: On success [total_processed] is the size of the whole cross product,
    skipped pairs included, and bounds the number of candidates; the
    candidates are ranked best first; and every candidate carries the
    identifiers of an invoice and a transaction of the input that have
    the same currency. *)
Theorem mutation_response (partial_ratio : string -> string -> Z)
    (context_scorer : option ReconciliationScorer)
    (input : ScoreCandidatesInput) (response : ScoreCandidatesResponse) :
  mutation_score_candidates partial_ratio context_scorer input = Ok response ->
  total_processed response
  = (length (invoices input) * length (transactions input))%nat
  /\ (length (candidates response) <= total_processed response)%nat
  /\ descending (candidates response)
  /\ forall c, In c (candidates response) ->
       exists inv txn,
         In inv (invoices input) /\ In txn (transactions input)
         /\ InvoiceInput.currency inv = TransactionInput.currency txn
         /\ invoice_id c = InvoiceInput.id inv
         /\ transaction_id c = TransactionInput.id txn.
Proof.
  unfold mutation_score_candidates.
  set (scorer := default default_scorer context_scorer).
  intros Hrun.
  destruct (score_candidates partial_ratio scorer _ _ _) as [found |] eqn:E;
    cbn in Hrun; [| discriminate].
  injection Hrun as <-. cbn [total_processed candidates].
  rewrite !length_map.
  apply score_candidates_inv in E. destruct E as (all & Hall & ->).
  destruct (all_candidates_sizes _ _ _ _ _ _ Hall) as (H1 & H2 & _ & _).
  rewrite !length_map in H2. rewrite sort_desc_length.
  split; [reflexivity |]. split; [lia |].
  split; [apply sort_desc_descending |].
  intros c Hc.
  apply (proj1 (sort_desc_In _ _)) in Hc.
  destruct (all_candidates_inv _ _ _ _ _ _ Hall) as [Hsound _].
  destruct (Hsound c Hc) as (invoice & kept & Hinv & Hkept & Hin).
  apply retained_inv in Hkept. destruct Hkept as (cands & Hcands & ->).
  apply slice_to_In in Hin. apply (proj1 (sort_desc_In _ _)) in Hin.
  destruct (invoice_candidates_sound _ _ _ _ _ _ Hcands Hin)
    as (transaction & Htx & Hsame & Hpair).
  apply in_map_iff in Hinv. destruct Hinv as (inv & <- & Hinv).
  apply in_map_iff in Htx. destruct Htx as (txn & <- & Htx).
  exists inv, txn. split; [exact Hinv |]. split; [exact Htx |].
  rewrite currency_differs_of_inputs in Hsame. split.
  - apply String.eqb_eq.
    destruct (String.eqb _ _); [reflexivity | discriminate].
  - unfold score_pair in Hpair. rewrite pair_arguments_of_inputs in Hpair.
    destruct (PyDecimal.of_str (InvoiceInput.amount inv)) as [a |];
      cbn in Hpair; [| discriminate].
    destruct (PyDecimal.of_str (TransactionInput.amount txn)) as [b |];
      cbn in Hpair; [| discriminate].
    injection Hpair as <-. rewrite score_match_fields. cbn.
    split; reflexivity.
Qed.


(* ------------------------------------------------------------------ *)
(** ** The further statements at concrete inputs *)


Lemma amount_score_scale_invariant_witness :
  fst (calculate_amount_score default_scorer (100 * 1000) (100 * 1010))
  == fst (calculate_amount_score default_scorer 1000 1010).
Proof.
  apply amount_score_scale_invariant. reflexivity.
Defined.

Lemma amount_score_at_tolerance_witness :
  fst (calculate_amount_score default_scorer 99 101) == 1 # 2.
Proof.
  apply amount_score_at_tolerance.
  - vm_compute. discriminate.
  - vm_compute. reflexivity.
Defined.

Lemma amount_score_degenerate_average_witness :
  percent_diff 5 (-5) = 100
  /\ fst (calculate_amount_score default_scorer 5 (-5)) == 0
  /\ snd (calculate_amount_score default_scorer 5 (-5))
     = "Amount differs by 100.0%".
Proof.
  apply amount_score_degenerate_average.
  - vm_compute. discriminate.
  - vm_compute. discriminate.
  - reflexivity.
Defined.

Lemma amount_score_monotone_within_witness :
  fst (calculate_amount_score default_scorer 1000 1015)
  <= fst (calculate_amount_score default_scorer 1000 1010).
Proof.
  apply amount_score_monotone_within.
  - vm_compute. discriminate.
  - vm_compute. discriminate.
  - reflexivity.
  - vm_compute. discriminate.
  - vm_compute. discriminate.
Defined.

Lemma amount_score_monotone_beyond_witness :
  fst (calculate_amount_score default_scorer 1000 2000)
  <= fst (calculate_amount_score default_scorer 1000 1500).
Proof.
  apply amount_score_monotone_beyond.
  - vm_compute. discriminate.
  - vm_compute. discriminate.
  - vm_compute. reflexivity.
  - vm_compute. discriminate.
Defined.

Lemma date_score_beyond_floor_witness :
  (fst (date_score_of_days default_scorer 20) < 1 # 2 <-> (15 < 20)%Z)
  /\ ((30 <= 20)%Z -> fst (date_score_of_days default_scorer 20) == 0).
Proof.
  apply date_score_beyond_floor; [lia | cbn; lia].
Defined.

Lemma date_score_range_witness :
  1 # 2
  <= fst (calculate_date_score default_scorer
            (Some (PyDate.mk_datetime 2024 1 15 0 0 0 0 None))
            (PyDate.mk_datetime 2024 1 17 0 0 0 0 None)).
Proof.
  apply (proj2 (date_score_range default_scorer
                  (Some (PyDate.mk_datetime 2024 1 15 0 0 0 0 None))
                  (PyDate.mk_datetime 2024 1 17 0 0 0 0 None))
           (PyDate.mk_datetime 2024 1 15 0 0 0 0 None) eq_refl).
  vm_compute. discriminate.
Defined.

Lemma days_diff_zero_iff_witness :
  days_diff (PyDate.mk_datetime 2024 1 15 10 0 0 0 None)
            (PyDate.mk_datetime 2024 1 15 0 0 0 0 None) = 0%Z.
Proof.
  apply (proj1 (days_diff_zero_iff _ _)). vm_compute.
  split; discriminate || reflexivity.
Defined.



Lemma sample_ratio_percentage : percentage sample_ratio.
Proof.
  intros a b. unfold sample_ratio. destruct (PyStr.contains a b); lia.
Defined.

Lemma text_score_bounds_witness :
  inject_Z (sample_ratio "office supplies" "payment for office supplies") / 100
  <= fst (calculate_text_score sample_ratio (Some "Office supplies")
            (Some "Payment for office supplies") None None)
  /\ fst (calculate_text_score sample_ratio (Some "Office supplies")
            (Some "Payment for office supplies") None None) <= 1.
Proof.
  destruct (text_score_bounds sample_ratio (Some "Office supplies")
              (Some "Payment for office supplies") None None)
    as (_ & Hdom & Hmax).
  split.
  - apply (Hdom eq_refl "office supplies"). left. reflexivity.
  - apply Hmax, sample_ratio_percentage.
Defined.

Lemma default_weights_nonnegative : nonnegative_weights default_scorer.
Proof. repeat split; discriminate. Defined.

Lemma score_match_ranges_witness :
  let c := score_match sample_ratio default_scorer
             "inv-1" 1000 (Some (PyDate.mk_datetime 2024 1 15 0 0 0 0 None))
             (Some "Office supplies") (Some "INV-001") (Some "Acme Corp")
             "txn-1" 5000 (PyDate.mk_datetime 2024 3 15 0 0 0 0 None)
             (Some "Unrelated payment") in
  0 <= score c /\ text_score c <= 100.
Proof.
  intros c.
  destruct (score_match_ranges sample_ratio default_scorer
              "inv-1" 1000 (Some (PyDate.mk_datetime 2024 1 15 0 0 0 0 None))
              (Some "Office supplies") (Some "INV-001") (Some "Acme Corp")
              "txn-1" 5000 (PyDate.mk_datetime 2024 3 15 0 0 0 0 None)
              (Some "Unrelated payment"))
    as (_ & Hpos & _ & _ & _ & Htext).
  split; [apply Hpos, default_weights_nonnegative
         | apply Htext, sample_ratio_percentage].
Defined.

Lemma sample_run :
  exists out,
    score_candidates sample_ratio default_scorer
      [sample_invoice] sample_transactions 2 = Ok out.
Proof.
  destruct (score_candidates sample_ratio default_scorer
              [sample_invoice] sample_transactions 2) as [out |] eqn:E.
  - exists out. reflexivity.
  - exfalso. vm_compute in E. discriminate E.
Defined.

Lemma score_candidates_ranked_witness :
  exists out,
    score_candidates sample_ratio default_scorer
      [sample_invoice] sample_transactions 2 = Ok out
    /\ descending out.
Proof.
  destruct sample_run as (out & Hrun). exists out.
  split; [exact Hrun |].
  apply (score_candidates_ranked _ _ _ _ _ _ Hrun).
Defined.


Lemma retained_keeps_best_witness :
  exists kept cands dropped,
    retained sample_ratio default_scorer 2 sample_invoice sample_transactions
    = Ok kept
    /\ invoice_candidates sample_ratio default_scorer
         sample_invoice sample_transactions = Ok cands
    /\ Permutation (kept ++ dropped)%list cands
    /\ forall c d, In c kept -> In d dropped -> score d <= score c.
Proof.
  destruct (retained sample_ratio default_scorer 2
              sample_invoice sample_transactions) as [kept |] eqn:E.
  - destruct (retained_keeps_best _ _ _ _ _ _ E)
      as (cands & dropped & Hc & _ & Hperm & _ & Hbest).
    exists kept, cands, dropped. repeat split; assumption.
  - exfalso. vm_compute in E. discriminate E.
Defined.

Lemma negative_top_n_drops_from_end_witness :
  exists kept cands,
    retained sample_ratio default_scorer (-2)
      sample_invoice sample_transactions = Ok kept
    /\ invoice_candidates sample_ratio default_scorer
         sample_invoice sample_transactions = Ok cands
    /\ length kept = Z.to_nat (Z.of_nat (length cands) + -2).
Proof.
  destruct (retained sample_ratio default_scorer (-2)
              sample_invoice sample_transactions) as [kept |] eqn:E.
  - destruct (negative_top_n_drops_from_end sample_ratio default_scorer (-2)
                sample_invoice sample_transactions kept ltac:(lia) E)
      as (cands & Hcands & _ & Hlen).
    exists kept, cands. repeat split; assumption.
  - exfalso. vm_compute in E. discriminate E.
Defined.





Lemma mutation_response_witness :
  exists response,
    mutation_score_candidates sample_ratio None sample_input = Ok response
    /\ total_processed response = 1%nat
    /\ (length (candidates response) <= 1)%nat.
Proof.
  destruct (mutation_score_candidates sample_ratio None sample_input)
    as [response |] eqn:E.
  - exists response. split; [reflexivity |].
    destruct (mutation_response _ _ _ _ E) as (Htotal & Hcount & _).
    rewrite Htotal in Hcount. split; [exact Htotal | exact Hcount].
  - exfalso. vm_compute in E. discriminate E.
Defined.
